(** * Session-gated navigation and product reconciliation of the legacy frontend

    A shallow embedding of the three Vue views of [frontend_legacy]:

    - [Login]     ([views/Login.vue]):     the credential form and its [login] handler;
    - [Home]      ([views/Home.vue]):      the session guard run by [mounted], [logout],
                                           and the computed [canChooseBranch], [roleLabel];
    - [Inventory] ([views/Inventory.vue]): the product reconciler ([fetchCatalogs],
                                           [fetchProducts], [saveProduct], [editProduct],
                                           [deactivateProduct], [resetForm], [saveLinea],
                                           [saveSegmento]) and the computed [filteredProducts].

    Modelling conventions.

    - JavaScript values are the inductive [jsval]; objects are finite maps from property
      names to values.  Numbers are IEEE doubles in the browser; here they are an abstract
      carrier (class [JsNumber]) with the few observations the views make of them, so that
      every statement below holds for any implementation of numbers.
    - A string is the sequence of bytes of its UTF-8 text (of its characters, for ASCII
      text).  Concatenation, [join], emptiness and [includes] between well-formed texts
      (no unpaired surrogate) are the same on the bytes as on the code units of the
      browser, and the length of a string is only read for its truth value.
      [toLowerCase] and [trim] go by the Unicode tables: they are abstract operations
      (class [JsText]), so that every statement about the search box holds for the
      methods of the browser on any text.
    - A method of a component is a computation in the monad [M]: it reads and writes the
      component's data ([this]), reads and writes the browser (local storage, router,
      the log of effects) and may throw.  An [await]ed [fetch] asks the network, a function
      from the number of requests made so far to what the backend does with the next one.
    - A handler runs to completion: events that the browser would interleave while a
      request is in flight are not modelled.
    - The text produced by [JSON.stringify] is represented by the JSON document it encodes. *)

From stdpp Require Import gmap strings list fin_maps pretty.
From Stdlib Require Import Ascii String.

Set Default Proof Using "Type".
#[local] Set Warnings "-register-all".
#[local] Open Scope string_scope.
#[local] Open Scope list_scope.

(** ** Numbers *)

(** What the views observe of a JavaScript number.  [num_truthy] is [ToBoolean] (false at
    zero and NaN), [num_finite] tells NaN and the infinities apart from the rest,
    [num_to_string] is [Number::toString] and [num_of_string] is [StringToNumber]. *)
Class JsNumber := {
  num : Type;
  num_of_nat : nat -> num;
  num_nan : num;
  num_truthy : num -> bool;
  num_finite : num -> bool;
  num_to_string : num -> string;
  num_of_string : string -> num;
  num_truthy_of_nat : forall n, num_truthy (num_of_nat n) = negb (Nat.eqb n 0);
}.

(** ** Text *)

(** The two string methods of the views that go by the Unicode tables:
    [String.prototype.toLowerCase] and [String.prototype.trim].  Three facts about them
    are used.  Neither makes anything of the empty string.  Lower-casing does not look
    across a space: the one rule of the default case conversion that reads the
    neighbours of a character, the one for the final sigma, reads on through
    case-ignorable characters only, and a space is not one of them. *)
Class JsText := {
  toLowerCase : string -> string;
  trim : string -> string;
  toLowerCase_empty : toLowerCase "" = "";
  toLowerCase_space :
    forall a b, toLowerCase (a +:+ " " +:+ b) = toLowerCase a +:+ " " +:+ toLowerCase b;
  trim_empty : trim "" = "";
}.

(** ** Strings *)

Module Str.

(** [String.prototype.includes]: [q] occurs in [s] at some position. *)
Fixpoint includes (s q : string) : bool :=
  String.prefix q s ||
  match s with
  | EmptyString => false
  | String _ s' => includes s' q
  end.

(** [Array.prototype.join] on strings. *)
Fixpoint join (sep : string) (l : list string) : string :=
  match l with
  | [] => EmptyString
  | [s] => s
  | s :: l' => s +:+ sep +:+ join sep l'
  end.

(** The character [c] occurs in [s]. *)
Fixpoint mentions (c : ascii) (s : string) : bool :=
  match s with
  | EmptyString => false
  | String x s' => bool_decide (c = x) || mentions c s'
  end.

(** The truth value of a string: every string but the empty one. *)
Definition nonempty (s : string) : bool :=
  match s with
  | EmptyString => false
  | String _ _ => true
  end.

End Str.

(** ** Text restricted to ASCII

    An instance of [JsText] used to run the views on concrete inputs.  On ASCII text
    these are the methods of the browser: [toLowerCase] folds the letters A to Z, and
    [trim] strips tab, line feed, vertical tab, form feed, carriage return and space.
    Texts with other characters are not meant to be run on it. *)

Module AsciiText.

Definition is_upper (c : ascii) : bool :=
  let n := nat_of_ascii c in (65 <=? n)%nat && (n <=? 90)%nat.

Definition lower_char (c : ascii) : ascii :=
  if is_upper c then ascii_of_nat (nat_of_ascii c + 32) else c.

Fixpoint toLowerCase (s : string) : string :=
  match s with
  | EmptyString => EmptyString
  | String c s' => String (lower_char c) (toLowerCase s')
  end.

Definition is_space (c : ascii) : bool :=
  let n := nat_of_ascii c in ((9 <=? n)%nat && (n <=? 13)%nat) || (n =? 32)%nat.

Fixpoint trimStart (s : string) : string :=
  match s with
  | EmptyString => EmptyString
  | String c s' => if is_space c then trimStart s' else s
  end.

Fixpoint trimEnd (s : string) : string :=
  match s with
  | EmptyString => EmptyString
  | String c s' =>
      match trimEnd s' with
      | EmptyString => if is_space c then EmptyString else String c EmptyString
      | t => String c t
      end
  end.

Definition trim (s : string) : string := trimEnd (trimStart s).

Fixpoint toLowerCase_app (a b : string) :
    toLowerCase (a +:+ b) = toLowerCase a +:+ toLowerCase b :=
  match a return toLowerCase (a +:+ b) = toLowerCase a +:+ toLowerCase b with
  | EmptyString => eq_refl
  | String c a' => f_equal (String (lower_char c)) (toLowerCase_app a' b)
  end.

#[export] Instance text : JsText :=
  Build_JsText toLowerCase trim eq_refl
    (fun a b =>
       eq_trans (toLowerCase_app a (" " +:+ b))
                (f_equal (String.append (toLowerCase a)) (toLowerCase_app " " b)))
    eq_refl.

End AsciiText.

(** ** Numbers restricted to the integers

    An instance of [JsNumber] used to run the views on concrete inputs: an integer, or
    [None] for NaN. *)

Module IntNum.

Fixpoint digits (s : string) (acc : Z) : option Z :=
  match s with
  | EmptyString => Some acc
  | String c s' =>
      let n := nat_of_ascii c in
      if (48 <=? n)%nat && (n <=? 57)%nat
      then digits s' (10 * acc + Z.of_nat (n - 48))%Z
      else None
  end.

Definition of_string (s : string) : option Z :=
  match AsciiText.trim s with
  | EmptyString => Some 0%Z
  | String "-" (String c t) => Z.opp <$> digits (String c t) 0
  | t => digits t 0
  end.

Definition is_truthy (n : option Z) : bool :=
  match n with
  | Some z => negb (Z.eqb z 0)
  | None => false
  end.

#[export] Instance number : JsNumber := {|
  num := option Z;
  num_of_nat n := Some (Z.of_nat n);
  num_nan := None;
  num_truthy := is_truthy;
  num_finite n := bool_decide (is_Some n);
  num_to_string n := match n with Some z => pretty z | None => "NaN" end;
  num_of_string := of_string;
  num_truthy_of_nat n :=
    match n return is_truthy (Some (Z.of_nat n)) = negb (Nat.eqb n 0) with
    | O => eq_refl
    | Datatypes.S _ => eq_refl
    end;
|}.

End IntNum.

(** ** Values *)

Section Values.
Context `{JsNumber}.

Inductive jsval : Type :=
| JUndefined
| JNull
| JBool (b : bool)
| JNum (n : num)
| JStr (s : string)
| JArr (l : list jsval)
| JObj (o : gmap string jsval).

(** [ToBoolean]. *)
Definition truthy (v : jsval) : bool :=
  match v with
  | JUndefined | JNull => false
  | JBool b => b
  | JNum n => num_truthy n
  | JStr s => Str.nonempty s
  | JArr _ | JObj _ => true
  end.

Definition nullish (v : jsval) : bool :=
  match v with
  | JUndefined | JNull => true
  | _ => false
  end.

(** [a || b] on values already computed. *)
Definition js_or (a b : jsval) : jsval := if truthy a then a else b.

(** [ToString], as template literals, [join] and [localStorage.setItem] apply it. *)
Fixpoint to_string (v : jsval) : string :=
  match v with
  | JUndefined => "undefined"
  | JNull => "null"
  | JBool true => "true"
  | JBool false => "false"
  | JNum n => num_to_string n
  | JStr s => s
  | JArr l => Str.join "," (map (fun x => if nullish x then "" else to_string x) l)
  | JObj _ => "[object Object]"
  end.

(** [l.join(sep)] on an array of values. *)
Definition array_join (sep : string) (l : list jsval) : string :=
  Str.join sep (map (fun x => if nullish x then "" else to_string x) l).

(** [Number(v)]. *)
Definition to_number (v : jsval) : num :=
  match v with
  | JUndefined => num_nan
  | JNull => num_of_nat 0
  | JBool true => num_of_nat 1
  | JBool false => num_of_nat 0
  | JNum n => n
  | JStr s => num_of_string s
  | JArr _ | JObj _ => num_of_string (to_string v)
  end.

(** [v === s] for a string literal [s]. *)
Definition strict_eq_str (v : jsval) (s : string) : bool :=
  match v with
  | JStr t => bool_decide (t = s)
  | _ => false
  end.

(** The value of a storage read or of a nullable string: [null] or the string. *)
Definition of_nullable (o : option string) : jsval :=
  match o with
  | Some s => JStr s
  | None => JNull
  end.

(** The document that [JSON.stringify] writes for a value: [None] where it writes
    nothing (a property holding [undefined] is left out, an array slot holding it
    becomes [null], and so does a number that is not finite). *)
Fixpoint json_of (v : jsval) : option jsval :=
  match v with
  | JUndefined => None
  | JNull => Some JNull
  | JBool b => Some (JBool b)
  | JNum n => Some (if num_finite n then JNum n else JNull)
  | JStr s => Some (JStr s)
  | JArr l => Some (JArr (map (fun x => default JNull (json_of x)) l))
  | JObj o => Some (JObj (omap json_of o))
  end.

Definition JSON_stringify (v : jsval) : option jsval := json_of v.

End Values.

(** ** Exceptions and partial operations *)

Inductive exn : Type :=
| TypeError            (* a property of [null]/[undefined], or a call of a non-function *)
| SyntaxError          (* [res.json()] on a body that is not JSON *)
| NetworkError         (* [fetch] rejected: the request never got a response *)
| Error (msg : string) (* [throw new Error(msg)] *).

Inductive outcome (A : Type) : Type :=
| Done (a : A)
| Thrown (e : exn).
Arguments Done {A} a.
Arguments Thrown {A} e.

Definition outcome_bind {A B} (o : outcome A) (k : A -> outcome B) : outcome B :=
  match o with
  | Done a => k a
  | Thrown e => Thrown e
  end.

(** [Array.prototype.map] with a callback that may throw: left to right, stopping at the
    first exception. *)
Fixpoint map_outcome {A B} (f : A -> outcome B) (l : list A) : outcome (list B) :=
  match l with
  | [] => Done []
  | x :: l' =>
      outcome_bind (f x) (fun y =>
      outcome_bind (map_outcome f l') (fun ys => Done (y :: ys)))
  end.

Section Access.
Context `{JsNumber}.

(** [v.k] for a property name [k] written in the source.  Reading a property of
    [undefined] or [null] throws; an object answers with its own property or
    [undefined]; arrays and strings have a [length]; nothing else has any of the names
    the views read. *)
Definition get (v : jsval) (k : string) : outcome jsval :=
  match v with
  | JUndefined | JNull => Thrown TypeError
  | JObj o => Done (default JUndefined (o !! k))
  | JArr l => Done (if bool_decide (k = "length") then JNum (num_of_nat (List.length l)) else JUndefined)
  | JStr s => Done (if bool_decide (k = "length") then JNum (num_of_nat (String.length s)) else JUndefined)
  | JBool _ | JNum _ => Done JUndefined
  end.

(** [v?.k]: [undefined] instead of an exception. *)
Definition get_opt (v : jsval) (k : string) : jsval :=
  match get v k with
  | Done x => x
  | Thrown _ => JUndefined
  end.

(** [l[i]] on an array. *)
Definition index (l : list jsval) (i : nat) : jsval := default JUndefined (l !! i).

(** [v.map(f)] and [v.filter(f)]: only an array has the method; on any other value the
    call is a [TypeError]. *)
Definition array_map (v : jsval) (f : jsval -> outcome jsval) : outcome (list jsval) :=
  match v with
  | JArr l => map_outcome f l
  | _ => Thrown TypeError
  end.

Fixpoint filter_outcome (f : jsval -> outcome bool) (l : list jsval) : outcome (list jsval) :=
  match l with
  | [] => Done []
  | x :: l' =>
      outcome_bind (f x) (fun keep =>
      outcome_bind (filter_outcome f l') (fun ys => Done (if keep then x :: ys else ys)))
  end.

Definition array_filter (v : jsval) (f : jsval -> outcome bool) : outcome (list jsval) :=
  match v with
  | JArr l => filter_outcome f l
  | _ => Thrown TypeError
  end.

End Access.

(** ** The browser and the network *)

Section Effects.
Context `{JsNumber}.

Record request : Type := {
  req_method : string;
  req_url : string;
  req_headers : list (string * string);
  req_body : option jsval;
}.

(** A response: [res.ok], and what [res.json()] resolves to ([None]: it rejects). *)
Record response : Type := {
  res_ok : bool;
  res_body : option jsval;
}.

Inductive netresult : Type :=
| NetFail
| NetResp (r : response).

(** The backend and the wire: what happens to the [n]-th request of the session. *)
Definition network : Type := nat -> netresult.

Inductive event : Type :=
| EvFetch (r : request)
| EvPush (path : string)
| EvSetItem (k v : string)
| EvRemoveItem (k : string).

Record browser : Type := {
  localStorage : gmap string string;
  route : string;          (* the router's current path *)
  requests : nat;          (* requests made so far *)
  trace : list event;      (* effects so far, oldest first *)
}.

Definition is_fetch (e : event) : bool :=
  match e with EvFetch _ => true | _ => false end.

(** A method of a component whose data has type [S]. *)
Definition M (S A : Type) : Type :=
  network -> S -> browser -> outcome A * S * browser.

Definition ret {S A} (a : A) : M S A := fun _ s b => (Done a, s, b).

Definition bind {S A B} (m : M S A) (k : A -> M S B) : M S B :=
  fun net s b =>
    match m net s b with
    | (Done a, s', b') => k a net s' b'
    | (Thrown e, s', b') => (Thrown e, s', b')
    end.

Definition throw {S A} (e : exn) : M S A := fun _ s b => (Thrown e, s, b).

(** [try { m } catch (error) { h }]: writes made before the exception stay. *)
Definition try_catch {S A} (m : M S A) (h : exn -> M S A) : M S A :=
  fun net s b =>
    match m net s b with
    | (Done a, s', b') => (Done a, s', b')
    | (Thrown e, s', b') => h e net s' b'
    end.

Definition lift {S A} (o : outcome A) : M S A := fun _ s b => (o, s, b).

(** [this]. *)
Definition this {S} : M S S := fun _ s b => (Done s, s, b).
Definition assign {S} (f : S -> S) : M S unit := fun _ s b => (Done tt, f s, b).

(** The browser once request [r] has gone out. *)
Definition sent (r : request) (b : browser) : browser :=
  {| localStorage := localStorage b; route := route b;
     requests := Datatypes.S (requests b); trace := trace b ++ [EvFetch r] |}.

Definition localStorage_getItem {S} (k : string) : M S (option string) :=
  fun _ s b => (Done (localStorage b !! k), s, b).

Definition localStorage_setItem {S} (k : string) (v : jsval) : M S unit :=
  fun _ s b =>
    (Done tt, s,
     {| localStorage := <[k := to_string v]> (localStorage b); route := route b;
        requests := requests b; trace := trace b ++ [EvSetItem k (to_string v)] |}).

Definition localStorage_removeItem {S} (k : string) : M S unit :=
  fun _ s b =>
    (Done tt, s,
     {| localStorage := delete k (localStorage b); route := route b;
        requests := requests b; trace := trace b ++ [EvRemoveItem k] |}).

(** [this.$router.push(path)]. *)
Definition router_push {S} (path : string) : M S unit :=
  fun _ s b =>
    (Done tt, s,
     {| localStorage := localStorage b; route := path;
        requests := requests b; trace := trace b ++ [EvPush path] |}).

(** [await fetch(...)]: the request is made; the network answers or fails. *)
Definition fetch {S} (r : request) : M S response :=
  fun net s b =>
    match net (requests b) with
    | NetFail => (Thrown NetworkError, s, sent r b)
    | NetResp res => (Done res, s, sent r b)
    end.

(** [await res.json()]. *)
Definition json {S} (res : response) : M S jsval :=
  lift (match res_body res with
        | Some v => Done v
        | None => Thrown SyntaxError
        end).

(** What a run of a method leaves behind. *)
Definition outcome_of {S A} (r : outcome A * S * browser) : outcome A := r.1.1.
Definition data_after {S A} (r : outcome A * S * browser) : S := r.1.2.
Definition browser_after {S A} (r : outcome A * S * browser) : browser := r.2.

End Effects.

Declare Scope js_scope.
Delimit Scope js_scope with js.
Notation "'let!' x ':=' m 'in' k" := (bind m (fun x => k))
  (at level 10, x name, m at level 100, k at level 200) : js_scope.
Notation "m ';;' k" := (bind m (fun _ => k))
  (at level 100, k at level 200, right associativity) : js_scope.

(** ** Home.vue *)

Module Home.
Section View.
Context `{JsNumber}.

Record data : Type := {
  displayName : jsval;
  role : jsval;
  branches : list jsval;
  activeBranch : jsval;
  accessError : option string;
}.

Definition branch (code name : jsval) : jsval :=
  JObj (<["code" := code]> (<["name" := name]> ∅)).

(** [data()]. *)
Definition initial : data := {|
  displayName := JStr "Usuario";
  role := JNull;
  branches := [];
  activeBranch := branch (JStr "") (JStr "");
  accessError := None;
|}.

Definition set_displayName (v : jsval) (d : data) : data :=
  {| displayName := v; role := role d; branches := branches d;
     activeBranch := activeBranch d; accessError := accessError d |}.
Definition set_role (v : jsval) (d : data) : data :=
  {| displayName := displayName d; role := v; branches := branches d;
     activeBranch := activeBranch d; accessError := accessError d |}.
Definition set_branches (v : list jsval) (d : data) : data :=
  {| displayName := displayName d; role := role d; branches := v;
     activeBranch := activeBranch d; accessError := accessError d |}.
Definition set_activeBranch (v : jsval) (d : data) : data :=
  {| displayName := displayName d; role := role d; branches := branches d;
     activeBranch := v; accessError := accessError d |}.
Definition set_accessError (v : option string) (d : data) : data :=
  {| displayName := displayName d; role := role d; branches := branches d;
     activeBranch := activeBranch d; accessError := v |}.

(** Computed properties. *)
Definition roleLabel (d : data) : string :=
  if strict_eq_str (role d) "administrador" then "Administrador" else "Usuario".

Definition canChooseBranch (d : data) : bool :=
  existsb (strict_eq_str (role d)) ["administrador"; "seguridad"].

(** Methods. *)
Definition setBranch (b : jsval) : M data unit := assign (set_activeBranch b).

Definition logout : M data unit :=
  (localStorage_removeItem "token" ;;
   router_push "/login")%js.

Definition me_request (authorization : string) : request := {|
  req_method := "GET";
  req_url := "http://127.0.0.1:8000/auth/me";
  req_headers := [("Authorization", authorization)];
  req_body := None;
|}.

(** [(role) => role.name] *)
Definition role_name (r : jsval) : outcome jsval := get r "name".

(** [(branch) => ({ code: branch.code, name: branch.name })] *)
Definition branch_of (b : jsval) : outcome jsval :=
  outcome_bind (get b "code") (fun code =>
  outcome_bind (get b "name") (fun name =>
  Done (branch code name))).

(** [data.full_name || data.email] *)
Definition display_name_of (data : jsval) : outcome jsval :=
  outcome_bind (get data "full_name") (fun full_name =>
  if truthy full_name then Done full_name else get data "email").

(** [(data.roles || []).map((role) => role.name)] *)
Definition role_names (data : jsval) : outcome (list jsval) :=
  outcome_bind (get data "roles") (fun roles =>
  array_map (js_or roles (JArr [])) role_name).

(** [{ code: "central", name: "Central" }] *)
Definition central : jsval := branch (JStr "central") (JStr "Central").

(** [data.branches && data.branches.length ? data.branches.map(...) : [{ code: "central", name: "Central" }]] *)
Definition branches_of (data : jsval) : outcome (list jsval) :=
  outcome_bind (get data "branches") (fun bs =>
  outcome_bind (if truthy bs then get bs "length" else Done bs) (fun len =>
  if truthy len then array_map bs branch_of
  else Done [central])).

(** The body of the [try] block of [mounted], after the token has been found. *)
Definition load_profile (token : jsval) : M data unit :=
  (let! res := fetch (me_request ("Bearer " +:+ to_string token)) in
   if negb (res_ok res) then throw (Error "Auth failed")
   else
     let! data := json res in
     let! name := lift (display_name_of data) in
     assign (set_displayName name) ;;
     let! roleNames := lift (role_names data) in
     assign (set_role (js_or (index roleNames 0) (JStr "usuario"))) ;;
     let! mapped := lift (branches_of data) in
     assign (set_branches mapped) ;;
     let! d := this in
     assign (set_activeBranch (index (branches d) 0)) ;;
     let! d := this in
     if negb (strict_eq_str (role d) "administrador") then
       assign (set_accessError (Some "Acceso exclusivo para administradores")) ;;
       logout
     else ret tt)%js.

(** [roleNames[0]]: the first role name of the profile. *)
Definition first_role_name (data : jsval) : outcome jsval :=
  outcome_bind (role_names data) (fun roleNames => Done (index roleNames 0)).

Definition mounted : M data unit :=
  (let! token := localStorage_getItem "token" in
   if negb (truthy (of_nullable token)) then
     router_push "/login"
   else
     try_catch
       (load_profile (of_nullable token))
       (fun _ =>
          assign (set_accessError (Some "Sesion invalida")) ;;
          logout))%js.

(** *** Vocabulary for the session guard

    [t] is the stored token and [b] the browser when [mounted] starts; the profile
    request is the next one the network sees. *)

Definition profile_call_fails (net : network) (b : browser) : Prop :=
  net (requests b) = NetFail \/
  exists res, net (requests b) = NetResp res /\ res_ok res = false.

Definition profile_answer (net : network) (b : browser) (profile : jsval) : Prop :=
  exists res,
    net (requests b) = NetResp res /\ res_ok res = true /\ res_body res = Some profile.

(** The profile was requested, then the token removed and the router sent to the
    login route; nothing else happened. *)
Definition logged_out (b : browser) (t : string) (b' : browser) : Prop :=
  localStorage b' = delete "token" (localStorage b) /\
  route b' = "/login" /\
  trace b' =
    trace b ++ [EvFetch (me_request ("Bearer " +:+ t)); EvRemoveItem "token"; EvPush "/login"].

(** The profile lists no branch: the property is missing or falsy, or an empty array. *)
Definition no_branches (profile : jsval) : Prop :=
  exists bs, get profile "branches" = Done bs /\ (truthy bs = false \/ bs = JArr []).

(** The profile was requested and nothing else happened. *)
Definition stays (b : browser) (t : string) (b' : browser) : Prop :=
  localStorage b' = localStorage b /\
  route b' = route b /\
  trace b' = trace b ++ [EvFetch (me_request ("Bearer " +:+ t))].

End View.
End Home.

(** ** Login.vue *)

Module Login.
Section View.
Context `{JsNumber}.

Record data : Type := {
  email : string;
  password : string;
  remember : bool;
  error : option string;
  phraseIndex : nat;
}.

Definition phrases : list string := [
  "Un ERP elegante para un comercio moderno.";
  "Tecnologia clara para decisiones rapidas.";
  "Software que ordena y acelera tu negocio.";
  "Procesos simples, resultados grandes.";
  "Datos confiables para crecer con seguridad.";
  "Innovacion que se siente en cada venta.";
  "Control total sin complicaciones.";
  "Visibilidad en tiempo real para cada area.";
  "Productividad que eleva a tu equipo.";
  "Operacion estable con soporte inteligente.";
  "Gestion profesional para empresas exigentes.";
  "Calidad que se nota en cada reporte.";
  "Flujo de trabajo limpio y eficiente.";
  "Seguridad y orden para escalar rapido.";
  "Menos friccion, mas rendimiento.";
  "Finanzas claras, inventario preciso.";
  "Un sistema que acompana tu crecimiento.";
  "Tecnologia confiable para liderar.";
  "Procesos conectados, equipos enfocados.";
  "Eficiencia diaria con estilo profesional.";
  "Decisiones estrategicas con datos vivos.";
  "Agilidad para competir y ganar.";
  "Automatiza lo repetitivo, enfoca lo importante.";
  "Control y elegancia en un solo lugar.";
  "Tu empresa, organizada y lista para el futuro."
].

(** [data()]. *)
Definition initial : data := {|
  email := "";
  password := "";
  remember := true;
  error := None;
  phraseIndex := 0;
|}.

Definition set_email (v : string) (d : data) : data :=
  {| email := v; password := password d; remember := remember d;
     error := error d; phraseIndex := phraseIndex d |}.
Definition set_password (v : string) (d : data) : data :=
  {| email := email d; password := v; remember := remember d;
     error := error d; phraseIndex := phraseIndex d |}.
Definition set_remember (v : bool) (d : data) : data :=
  {| email := email d; password := password d; remember := v;
     error := error d; phraseIndex := phraseIndex d |}.
Definition set_error (v : option string) (d : data) : data :=
  {| email := email d; password := password d; remember := remember d;
     error := v; phraseIndex := phraseIndex d |}.
Definition set_phraseIndex (v : nat) (d : data) : data :=
  {| email := email d; password := password d; remember := remember d;
     error := error d; phraseIndex := v |}.

Definition currentPhrase (d : data) : option string := phrases !! phraseIndex d.

(** The callback of the timer started by [mounted]. *)
Definition tick : M data unit :=
  assign (fun d => set_phraseIndex ((phraseIndex d + 1) mod List.length phrases) d).

(** [{ email: this.email, password: this.password }] *)
Definition credentials (d : data) : jsval :=
  JObj (<["email" := JStr (email d)]> (<["password" := JStr (password d)]> ∅)).

Definition login_request (d : data) : request := {|
  req_method := "POST";
  req_url := "http://127.0.0.1:8000/auth/login";
  req_headers := [("Content-Type", "application/json")];
  req_body := JSON_stringify (credentials d);
|}.

Definition login : M data unit :=
  (try_catch
     (let! d := this in
      let! res := fetch (login_request d) in
      if negb (res_ok res) then
        assign (set_error (Some "Credenciales incorrectas"))
      else
        let! data := json res in
        let! access_token := lift (get data "access_token") in
        localStorage_setItem "token" access_token ;;
        router_push "/home")
     (fun _ => assign (set_error (Some "Error de conexion"))))%js.

End View.
End Login.

(** ** Inventory.vue *)

Module Inventory.
Section View.
Context `{JsNumber} `{JsText}.

(** [form]: the twelve bound fields of the product form. *)
Record form_t : Type := {
  cod_producto : jsval;
  descripcion : jsval;
  linea_id : jsval;
  segmento_id : jsval;
  marca : jsval;
  referencia_producto : jsval;
  precio_venta1 : jsval;
  precio_venta2 : jsval;
  precio_venta3 : jsval;
  costo_producto : jsval;
  existencia : jsval;
  activo : jsval;
}.

Record lineaForm_t : Type := {
  lf_cod_linea : string;
  lf_linea : string;
  lf_activo : bool;
}.

Record segmentoForm_t : Type := {
  sf_segmento : string;
}.

Record data : Type := {
  products : jsval;
  lineas : jsval;
  segmentos : jsval;
  includeInactive : bool;
  isEditing : bool;
  editingId : jsval;
  search : string;
  showLineaForm : bool;
  showSegmentoForm : bool;
  lineaForm : lineaForm_t;
  segmentoForm : segmentoForm_t;
  form : form_t;
}.

Definition zero : jsval := JNum (num_of_nat 0).

(** The object literal written by [data()] and by [resetForm]. *)
Definition empty_form : form_t := {|
  cod_producto := JStr "";
  descripcion := JStr "";
  linea_id := JStr "";
  segmento_id := JStr "";
  marca := JStr "";
  referencia_producto := JStr "";
  precio_venta1 := zero;
  precio_venta2 := zero;
  precio_venta3 := zero;
  costo_producto := zero;
  existencia := zero;
  activo := JBool true;
|}.

Definition empty_lineaForm : lineaForm_t :=
  {| lf_cod_linea := ""; lf_linea := ""; lf_activo := true |}.

Definition empty_segmentoForm : segmentoForm_t := {| sf_segmento := "" |}.

(** [data()]. *)
Definition initial : data := {|
  products := JArr [];
  lineas := JArr [];
  segmentos := JArr [];
  includeInactive := false;
  isEditing := false;
  editingId := JNull;
  search := "";
  showLineaForm := false;
  showSegmentoForm := false;
  lineaForm := empty_lineaForm;
  segmentoForm := empty_segmentoForm;
  form := empty_form;
|}.

Definition set_products (v : jsval) (d : data) : data :=
  {| products := v; lineas := lineas d; segmentos := segmentos d;
     includeInactive := includeInactive d; isEditing := isEditing d;
     editingId := editingId d; search := search d; showLineaForm := showLineaForm d;
     showSegmentoForm := showSegmentoForm d; lineaForm := lineaForm d;
     segmentoForm := segmentoForm d; form := form d |}.
Definition set_lineas (v : jsval) (d : data) : data :=
  {| products := products d; lineas := v; segmentos := segmentos d;
     includeInactive := includeInactive d; isEditing := isEditing d;
     editingId := editingId d; search := search d; showLineaForm := showLineaForm d;
     showSegmentoForm := showSegmentoForm d; lineaForm := lineaForm d;
     segmentoForm := segmentoForm d; form := form d |}.
Definition set_segmentos (v : jsval) (d : data) : data :=
  {| products := products d; lineas := lineas d; segmentos := v;
     includeInactive := includeInactive d; isEditing := isEditing d;
     editingId := editingId d; search := search d; showLineaForm := showLineaForm d;
     showSegmentoForm := showSegmentoForm d; lineaForm := lineaForm d;
     segmentoForm := segmentoForm d; form := form d |}.
Definition set_includeInactive (v : bool) (d : data) : data :=
  {| products := products d; lineas := lineas d; segmentos := segmentos d;
     includeInactive := v; isEditing := isEditing d;
     editingId := editingId d; search := search d; showLineaForm := showLineaForm d;
     showSegmentoForm := showSegmentoForm d; lineaForm := lineaForm d;
     segmentoForm := segmentoForm d; form := form d |}.
Definition set_isEditing (v : bool) (d : data) : data :=
  {| products := products d; lineas := lineas d; segmentos := segmentos d;
     includeInactive := includeInactive d; isEditing := v;
     editingId := editingId d; search := search d; showLineaForm := showLineaForm d;
     showSegmentoForm := showSegmentoForm d; lineaForm := lineaForm d;
     segmentoForm := segmentoForm d; form := form d |}.
Definition set_editingId (v : jsval) (d : data) : data :=
  {| products := products d; lineas := lineas d; segmentos := segmentos d;
     includeInactive := includeInactive d; isEditing := isEditing d;
     editingId := v; search := search d; showLineaForm := showLineaForm d;
     showSegmentoForm := showSegmentoForm d; lineaForm := lineaForm d;
     segmentoForm := segmentoForm d; form := form d |}.
Definition set_search (v : string) (d : data) : data :=
  {| products := products d; lineas := lineas d; segmentos := segmentos d;
     includeInactive := includeInactive d; isEditing := isEditing d;
     editingId := editingId d; search := v; showLineaForm := showLineaForm d;
     showSegmentoForm := showSegmentoForm d; lineaForm := lineaForm d;
     segmentoForm := segmentoForm d; form := form d |}.
Definition set_showLineaForm (v : bool) (d : data) : data :=
  {| products := products d; lineas := lineas d; segmentos := segmentos d;
     includeInactive := includeInactive d; isEditing := isEditing d;
     editingId := editingId d; search := search d; showLineaForm := v;
     showSegmentoForm := showSegmentoForm d; lineaForm := lineaForm d;
     segmentoForm := segmentoForm d; form := form d |}.
Definition set_showSegmentoForm (v : bool) (d : data) : data :=
  {| products := products d; lineas := lineas d; segmentos := segmentos d;
     includeInactive := includeInactive d; isEditing := isEditing d;
     editingId := editingId d; search := search d; showLineaForm := showLineaForm d;
     showSegmentoForm := v; lineaForm := lineaForm d;
     segmentoForm := segmentoForm d; form := form d |}.
Definition set_lineaForm (v : lineaForm_t) (d : data) : data :=
  {| products := products d; lineas := lineas d; segmentos := segmentos d;
     includeInactive := includeInactive d; isEditing := isEditing d;
     editingId := editingId d; search := search d; showLineaForm := showLineaForm d;
     showSegmentoForm := showSegmentoForm d; lineaForm := v;
     segmentoForm := segmentoForm d; form := form d |}.
Definition set_segmentoForm (v : segmentoForm_t) (d : data) : data :=
  {| products := products d; lineas := lineas d; segmentos := segmentos d;
     includeInactive := includeInactive d; isEditing := isEditing d;
     editingId := editingId d; search := search d; showLineaForm := showLineaForm d;
     showSegmentoForm := showSegmentoForm d; lineaForm := lineaForm d;
     segmentoForm := v; form := form d |}.
Definition set_form (v : form_t) (d : data) : data :=
  {| products := products d; lineas := lineas d; segmentos := segmentos d;
     includeInactive := includeInactive d; isEditing := isEditing d;
     editingId := editingId d; search := search d; showLineaForm := showLineaForm d;
     showSegmentoForm := showSegmentoForm d; lineaForm := lineaForm d;
     segmentoForm := segmentoForm d; form := v |}.

(** *** Computed *)

(** The text a product is searched in: the values of the five searched properties that
    are truthy, joined by one space and lower-cased. *)
Definition search_text (producto : jsval) : outcome string :=
  outcome_bind (get producto "cod_producto") (fun cod =>
  outcome_bind (get producto "descripcion") (fun descr =>
  outcome_bind (get producto "linea") (fun linea =>
  outcome_bind (get producto "segmento") (fun segmento =>
  outcome_bind (get producto "marca") (fun brand =>
  Done (toLowerCase
          (array_join " "
             (List.filter truthy
                [cod; descr; get_opt linea "linea"; get_opt segmento "segmento"; brand])))))))).

Definition matches (query : string) (producto : jsval) : outcome bool :=
  outcome_bind (search_text producto) (fun values => Done (Str.includes values query)).

Definition filteredProducts (d : data) : outcome jsval :=
  let query := toLowerCase (trim (search d)) in
  if negb (Str.nonempty query) then Done (products d)
  else outcome_bind (array_filter (products d) (matches query)) (fun l => Done (JArr l)).

(** The five searched properties of a product whose properties can be read, and the
    text of those that are truthy. *)
Definition searched_values (producto : jsval) : list jsval :=
  [get_opt producto "cod_producto";
   get_opt producto "descripcion";
   get_opt (get_opt producto "linea") "linea";
   get_opt (get_opt producto "segmento") "segmento";
   get_opt producto "marca"].

Definition searched (producto : jsval) : list string :=
  map to_string (List.filter truthy (searched_values producto)).

(** The lower-cased text of the searched values, joined by spaces, contains the query:
    what [matches] computes. *)
Definition text_contains (query : string) (producto : jsval) : bool :=
  Str.includes (toLowerCase (Str.join " " (searched producto))) query.

(** One of the searched values contains the query, case folded. *)
Definition some_field_contains (query : string) (producto : jsval) : bool :=
  existsb (fun w => Str.includes (toLowerCase w) query) (searched producto).

(** *** Methods *)

Definition api : string := "http://127.0.0.1:8000/inventory".

Definition bearer (token : option string) : string * string :=
  ("Authorization", "Bearer " +:+ to_string (of_nullable token)).

Definition content_type : string * string := ("Content-Type", "application/json").

Definition catalogs_request (token : option string) : request := {|
  req_method := "GET";
  req_url := api +:+ "/catalogs";
  req_headers := [bearer token];
  req_body := None;
|}.

Definition fetchCatalogs : M data unit :=
  (let! token := localStorage_getItem "token" in
   let! res := fetch (catalogs_request token) in
   if res_ok res then
     let! data := json res in
     let! ls := lift (get data "lineas") in
     assign (set_lineas (js_or ls (JArr []))) ;;
     let! ss := lift (get data "segmentos") in
     assign (set_segmentos (js_or ss (JArr [])))
   else ret tt)%js.

Definition products_request (token : option string) (include_inactive : bool) : request := {|
  req_method := "GET";
  req_url := api +:+ "/products?include_inactive=" +:+ to_string (JBool include_inactive);
  req_headers := [bearer token];
  req_body := None;
|}.

Definition fetchProducts : M data unit :=
  (let! token := localStorage_getItem "token" in
   let! d := this in
   let! res := fetch (products_request token (includeInactive d)) in
   if res_ok res then
     let! list := json res in
     assign (set_products list)
   else ret tt)%js.

Definition mounted : M data unit :=
  (fetchCatalogs ;;
   fetchProducts)%js.

Definition resetForm : M data unit :=
  (assign (set_isEditing false) ;;
   assign (set_editingId JNull) ;;
   assign (set_form empty_form))%js.

(** [resetForm] as one write. *)
Definition reset (d : data) : data :=
  set_form empty_form (set_editingId JNull (set_isEditing false d)).

(** [{ ...this.form }] *)
Definition spread (f : form_t) : gmap string jsval :=
  list_to_map [
    ("cod_producto", cod_producto f);
    ("descripcion", descripcion f);
    ("linea_id", linea_id f);
    ("segmento_id", segmento_id f);
    ("marca", marca f);
    ("referencia_producto", referencia_producto f);
    ("precio_venta1", precio_venta1 f);
    ("precio_venta2", precio_venta2 f);
    ("precio_venta3", precio_venta3 f);
    ("costo_producto", costo_producto f);
    ("existencia", existencia f);
    ("activo", activo f)
  ].

(** [payload.k = payload.k || null] *)
Definition or_null (k : string) (payload : gmap string jsval) : gmap string jsval :=
  <[k := js_or (default JUndefined (payload !! k)) JNull]> payload.

(** The object handed to [JSON.stringify] by [saveProduct]. *)
Definition payload_of (d : data) : gmap string jsval :=
  let payload := spread (form d) in
  let payload := or_null "linea_id" payload in
  let payload := or_null "segmento_id" payload in
  if isEditing d then delete "cod_producto" payload else payload.

Definition save_request (token : option string) (d : data) : request := {|
  req_method := if isEditing d then "PUT" else "POST";
  req_url := if isEditing d then api +:+ "/products/" +:+ to_string (editingId d)
             else api +:+ "/products";
  req_headers := [content_type; bearer token];
  req_body := JSON_stringify (JObj (payload_of d));
|}.

Definition saveProduct : M data unit :=
  (let! token := localStorage_getItem "token" in
   let! d := this in
   let! res := fetch (save_request token d) in
   if res_ok res then
     fetchProducts ;;
     resetForm
   else ret tt)%js.

(** [Number(v || 0)] *)
Definition number_or_zero (v : jsval) : jsval := JNum (to_number (js_or v zero)).

Definition editProduct (producto : jsval) : M data unit :=
  (assign (set_isEditing true) ;;
   let! id := lift (get producto "id") in
   assign (set_editingId id) ;;
   let! cod := lift (get producto "cod_producto") in
   let! descr := lift (get producto "descripcion") in
   let! linea := lift (get producto "linea") in
   let! segmento := lift (get producto "segmento") in
   let! brand := lift (get producto "marca") in
   let! ref := lift (get producto "referencia_producto") in
   let! p1 := lift (get producto "precio_venta1") in
   let! p2 := lift (get producto "precio_venta2") in
   let! p3 := lift (get producto "precio_venta3") in
   let! cost := lift (get producto "costo_producto") in
   let! saldo := lift (get producto "saldo") in
   let! active := lift (get producto "activo") in
   assign (set_form {|
     cod_producto := cod;
     descripcion := descr;
     linea_id := js_or (get_opt linea "id") (JStr "");
     segmento_id := js_or (get_opt segmento "id") (JStr "");
     marca := js_or brand (JStr "");
     referencia_producto := js_or ref (JStr "");
     precio_venta1 := number_or_zero p1;
     precio_venta2 := number_or_zero p2;
     precio_venta3 := number_or_zero p3;
     costo_producto := number_or_zero cost;
     existencia := number_or_zero (get_opt saldo "existencia");
     activo := active;
   |}))%js.

Definition deactivate_request (token : option string) (id : jsval) : request := {|
  req_method := "PATCH";
  req_url := api +:+ "/products/" +:+ to_string id +:+ "/deactivate";
  req_headers := [bearer token];
  req_body := None;
|}.

Definition deactivateProduct (producto : jsval) : M data unit :=
  (let! token := localStorage_getItem "token" in
   let! id := lift (get producto "id") in
   fetch (deactivate_request token id) ;;
   fetchProducts)%js.

Definition resetLineaForm : M data unit := assign (set_lineaForm empty_lineaForm).
Definition resetSegmentoForm : M data unit := assign (set_segmentoForm empty_segmentoForm).

Definition linea_payload (f : lineaForm_t) : jsval :=
  JObj (list_to_map [
    ("cod_linea", JStr (lf_cod_linea f));
    ("linea", JStr (lf_linea f));
    ("activo", JBool (lf_activo f))
  ]).

Definition segmento_payload (f : segmentoForm_t) : jsval :=
  JObj (list_to_map [("segmento", JStr (sf_segmento f))]).

Definition linea_request (token : option string) (d : data) : request := {|
  req_method := "POST";
  req_url := api +:+ "/lineas";
  req_headers := [content_type; bearer token];
  req_body := JSON_stringify (linea_payload (lineaForm d));
|}.

Definition segmento_request (token : option string) (d : data) : request := {|
  req_method := "POST";
  req_url := api +:+ "/segmentos";
  req_headers := [content_type; bearer token];
  req_body := JSON_stringify (segmento_payload (segmentoForm d));
|}.

Definition saveLinea : M data unit :=
  (let! token := localStorage_getItem "token" in
   let! d := this in
   let! res := fetch (linea_request token d) in
   if res_ok res then
     fetchCatalogs ;;
     resetLineaForm
   else ret tt)%js.

Definition saveSegmento : M data unit :=
  (let! token := localStorage_getItem "token" in
   let! d := this in
   let! res := fetch (segmento_request token d) in
   if res_ok res then
     fetchCatalogs ;;
     resetSegmentoForm
   else ret tt)%js.

(** Inline handlers of the template. *)
Definition toggleLineaForm : M data unit :=
  assign (fun d => set_showLineaForm (negb (showLineaForm d)) d).
Definition toggleSegmentoForm : M data unit :=
  assign (fun d => set_showSegmentoForm (negb (showSegmentoForm d)) d).
(** The "Incluir inactivos" check box: [v-model] writes, then [@change] refetches. *)
Definition changeIncludeInactive (checked : bool) : M data unit :=
  (assign (set_includeInactive checked) ;;
   fetchProducts)%js.

(** The form that [editProduct] writes for a record whose properties can be read. *)
Definition form_of (producto : jsval) : form_t := {|
  cod_producto := get_opt producto "cod_producto";
  descripcion := get_opt producto "descripcion";
  linea_id := js_or (get_opt (get_opt producto "linea") "id") (JStr "");
  segmento_id := js_or (get_opt (get_opt producto "segmento") "id") (JStr "");
  marca := js_or (get_opt producto "marca") (JStr "");
  referencia_producto := js_or (get_opt producto "referencia_producto") (JStr "");
  precio_venta1 := number_or_zero (get_opt producto "precio_venta1");
  precio_venta2 := number_or_zero (get_opt producto "precio_venta2");
  precio_venta3 := number_or_zero (get_opt producto "precio_venta3");
  costo_producto := number_or_zero (get_opt producto "costo_producto");
  existencia := number_or_zero (get_opt (get_opt producto "saldo") "existencia");
  activo := get_opt producto "activo";
|}.

(** The mode and the product form of [d'] are those of [d]. *)
Definition same_form (d d' : data) : Prop :=
  isEditing d' = isEditing d /\ editingId d' = editingId d /\ form d' = form d.

(** The [n]-th request of the session gets a response, and one that is ok carries
    JSON: an [await]ed [fetch] and [json()] of it do not throw. *)
Definition answered (net : network) (n : nat) : Prop :=
  match net n with
  | NetFail => False
  | NetResp res => res_ok res = true -> is_Some (res_body res)
  end.

(** The [n]-th request of the session is answered with the list [list]. *)
Definition answered_with (net : network) (n : nat) (list : jsval) : Prop :=
  exists res, net n = NetResp res /\ res_ok res = true /\ res_body res = Some list.

(** The effect [e] is a request that carries the stored token as a bearer credential. *)
Definition authorized (token : option string) (e : event) : Prop :=
  match e with
  | EvFetch r => In (bearer token) (req_headers r)
  | _ => False
  end.

(** From [b] to [b'] nothing happened but such requests: the storage and the route
    are the same. *)
Definition only_requests (b b' : browser) : Prop :=
  localStorage b' = localStorage b /\ route b' = route b /\
  exists evs, trace b' = trace b ++ evs /\ Forall (authorized (localStorage b !! "token")) evs.

(** The list of [d'] is the list of [d], or the body of an ok response. *)
Definition from_backend (net : network) (d d' : data) : Prop :=
  products d' = products d \/
  exists n res, net n = NetResp res /\ res_ok res = true /\ res_body res = Some (products d').

(** *** The template's bindings and listeners

    A [v-model] writes the bound property; a listener calls a method. *)

Definition with_cod_producto (v : jsval) (f : form_t) : form_t :=
  {| cod_producto := v; descripcion := descripcion f; linea_id := linea_id f;
     segmento_id := segmento_id f; marca := marca f;
     referencia_producto := referencia_producto f; precio_venta1 := precio_venta1 f;
     precio_venta2 := precio_venta2 f; precio_venta3 := precio_venta3 f;
     costo_producto := costo_producto f; existencia := existencia f; activo := activo f |}.
Definition with_descripcion (v : jsval) (f : form_t) : form_t :=
  {| cod_producto := cod_producto f; descripcion := v; linea_id := linea_id f;
     segmento_id := segmento_id f; marca := marca f;
     referencia_producto := referencia_producto f; precio_venta1 := precio_venta1 f;
     precio_venta2 := precio_venta2 f; precio_venta3 := precio_venta3 f;
     costo_producto := costo_producto f; existencia := existencia f; activo := activo f |}.
Definition with_linea_id (v : jsval) (f : form_t) : form_t :=
  {| cod_producto := cod_producto f; descripcion := descripcion f; linea_id := v;
     segmento_id := segmento_id f; marca := marca f;
     referencia_producto := referencia_producto f; precio_venta1 := precio_venta1 f;
     precio_venta2 := precio_venta2 f; precio_venta3 := precio_venta3 f;
     costo_producto := costo_producto f; existencia := existencia f; activo := activo f |}.
Definition with_segmento_id (v : jsval) (f : form_t) : form_t :=
  {| cod_producto := cod_producto f; descripcion := descripcion f; linea_id := linea_id f;
     segmento_id := v; marca := marca f; referencia_producto := referencia_producto f;
     precio_venta1 := precio_venta1 f; precio_venta2 := precio_venta2 f;
     precio_venta3 := precio_venta3 f; costo_producto := costo_producto f;
     existencia := existencia f; activo := activo f |}.
Definition with_marca (v : jsval) (f : form_t) : form_t :=
  {| cod_producto := cod_producto f; descripcion := descripcion f; linea_id := linea_id f;
     segmento_id := segmento_id f; marca := v;
     referencia_producto := referencia_producto f; precio_venta1 := precio_venta1 f;
     precio_venta2 := precio_venta2 f; precio_venta3 := precio_venta3 f;
     costo_producto := costo_producto f; existencia := existencia f; activo := activo f |}.
Definition with_referencia_producto (v : jsval) (f : form_t) : form_t :=
  {| cod_producto := cod_producto f; descripcion := descripcion f; linea_id := linea_id f;
     segmento_id := segmento_id f; marca := marca f; referencia_producto := v;
     precio_venta1 := precio_venta1 f; precio_venta2 := precio_venta2 f;
     precio_venta3 := precio_venta3 f; costo_producto := costo_producto f;
     existencia := existencia f; activo := activo f |}.
Definition with_precio_venta1 (v : jsval) (f : form_t) : form_t :=
  {| cod_producto := cod_producto f; descripcion := descripcion f; linea_id := linea_id f;
     segmento_id := segmento_id f; marca := marca f;
     referencia_producto := referencia_producto f; precio_venta1 := v;
     precio_venta2 := precio_venta2 f; precio_venta3 := precio_venta3 f;
     costo_producto := costo_producto f; existencia := existencia f; activo := activo f |}.
Definition with_precio_venta2 (v : jsval) (f : form_t) : form_t :=
  {| cod_producto := cod_producto f; descripcion := descripcion f; linea_id := linea_id f;
     segmento_id := segmento_id f; marca := marca f;
     referencia_producto := referencia_producto f; precio_venta1 := precio_venta1 f;
     precio_venta2 := v; precio_venta3 := precio_venta3 f;
     costo_producto := costo_producto f; existencia := existencia f; activo := activo f |}.
Definition with_precio_venta3 (v : jsval) (f : form_t) : form_t :=
  {| cod_producto := cod_producto f; descripcion := descripcion f; linea_id := linea_id f;
     segmento_id := segmento_id f; marca := marca f;
     referencia_producto := referencia_producto f; precio_venta1 := precio_venta1 f;
     precio_venta2 := precio_venta2 f; precio_venta3 := v;
     costo_producto := costo_producto f; existencia := existencia f; activo := activo f |}.
Definition with_costo_producto (v : jsval) (f : form_t) : form_t :=
  {| cod_producto := cod_producto f; descripcion := descripcion f; linea_id := linea_id f;
     segmento_id := segmento_id f; marca := marca f;
     referencia_producto := referencia_producto f; precio_venta1 := precio_venta1 f;
     precio_venta2 := precio_venta2 f; precio_venta3 := precio_venta3 f;
     costo_producto := v; existencia := existencia f; activo := activo f |}.
Definition with_existencia (v : jsval) (f : form_t) : form_t :=
  {| cod_producto := cod_producto f; descripcion := descripcion f; linea_id := linea_id f;
     segmento_id := segmento_id f; marca := marca f;
     referencia_producto := referencia_producto f; precio_venta1 := precio_venta1 f;
     precio_venta2 := precio_venta2 f; precio_venta3 := precio_venta3 f;
     costo_producto := costo_producto f; existencia := v; activo := activo f |}.
Definition with_activo (v : jsval) (f : form_t) : form_t :=
  {| cod_producto := cod_producto f; descripcion := descripcion f; linea_id := linea_id f;
     segmento_id := segmento_id f; marca := marca f;
     referencia_producto := referencia_producto f; precio_venta1 := precio_venta1 f;
     precio_venta2 := precio_venta2 f; precio_venta3 := precio_venta3 f;
     costo_producto := costo_producto f; existencia := existencia f; activo := v |}.

Definition edit_form (g : form_t -> form_t) : M data unit :=
  assign (fun d => set_form (g (form d)) d).

Definition edit_lineaForm (g : lineaForm_t -> lineaForm_t) : M data unit :=
  assign (fun d => set_lineaForm (g (lineaForm d)) d).

Inductive action : Type :=
| Activate                                   (* the view is mounted *)
| InputCodigo (text : string)                (* v-model="form.cod_producto" *)
| InputDescripcion (text : string)           (* v-model="form.descripcion" *)
| SelectLinea (value : jsval)                (* v-model="form.linea_id": "" or linea.id *)
| SelectSegmento (value : jsval)             (* v-model="form.segmento_id": "" or seg.id *)
| InputMarca (text : string)                 (* v-model="form.marca" *)
| InputReferencia (text : string)            (* v-model="form.referencia_producto" *)
| InputPrecio1 (value : jsval)               (* v-model.number: a number, or the text *)
| InputPrecio2 (value : jsval)
| InputPrecio3 (value : jsval)
| InputCosto (value : jsval)
| InputExistencia (value : jsval)
| CheckActivo (checked : bool)               (* v-model="form.activo" *)
| CheckIncluirInactivos (checked : bool)     (* v-model="includeInactive" @change="fetchProducts" *)
| InputBuscar (text : string)                (* v-model="search" *)
| ClickLimpiar                               (* @click="resetForm" *)
| ClickGuardar                               (* @click="saveProduct", @submit.prevent="saveProduct" *)
| ClickEditar (producto : jsval)             (* @click="editProduct(producto)" *)
| ClickDesactivar (producto : jsval)         (* @click="deactivateProduct(producto)" *)
| ClickNuevaLinea                            (* @click="showLineaForm = !showLineaForm" *)
| ClickNuevoSegmento                         (* @click="showSegmentoForm = !showSegmentoForm" *)
| InputCodigoLinea (text : string)           (* v-model="lineaForm.cod_linea" *)
| InputNombreLinea (text : string)           (* v-model="lineaForm.linea" *)
| CheckLineaActivo (checked : bool)          (* v-model="lineaForm.activo" *)
| InputSegmento (text : string)              (* v-model="segmentoForm.segmento" *)
| ClickLimpiarLinea                          (* @click="resetLineaForm" *)
| ClickGuardarLinea                          (* @click="saveLinea" *)
| ClickLimpiarSegmento                       (* @click="resetSegmentoForm" *)
| ClickGuardarSegmento                       (* @click="saveSegmento" *).

Definition dispatch (a : action) : M data unit :=
  match a with
  | Activate => mounted
  | InputCodigo text => edit_form (with_cod_producto (JStr text))
  | InputDescripcion text => edit_form (with_descripcion (JStr text))
  | SelectLinea value => edit_form (with_linea_id value)
  | SelectSegmento value => edit_form (with_segmento_id value)
  | InputMarca text => edit_form (with_marca (JStr text))
  | InputReferencia text => edit_form (with_referencia_producto (JStr text))
  | InputPrecio1 value => edit_form (with_precio_venta1 value)
  | InputPrecio2 value => edit_form (with_precio_venta2 value)
  | InputPrecio3 value => edit_form (with_precio_venta3 value)
  | InputCosto value => edit_form (with_costo_producto value)
  | InputExistencia value => edit_form (with_existencia value)
  | CheckActivo checked => edit_form (with_activo (JBool checked))
  | CheckIncluirInactivos checked => changeIncludeInactive checked
  | InputBuscar text => assign (set_search text)
  | ClickLimpiar => resetForm
  | ClickGuardar => saveProduct
  | ClickEditar producto => editProduct producto
  | ClickDesactivar producto => deactivateProduct producto
  | ClickNuevaLinea => toggleLineaForm
  | ClickNuevoSegmento => toggleSegmentoForm
  | InputCodigoLinea text =>
      edit_lineaForm (fun f => {| lf_cod_linea := text; lf_linea := lf_linea f;
                                  lf_activo := lf_activo f |})
  | InputNombreLinea text =>
      edit_lineaForm (fun f => {| lf_cod_linea := lf_cod_linea f; lf_linea := text;
                                  lf_activo := lf_activo f |})
  | CheckLineaActivo checked =>
      edit_lineaForm (fun f => {| lf_cod_linea := lf_cod_linea f; lf_linea := lf_linea f;
                                  lf_activo := checked |})
  | InputSegmento text => assign (set_segmentoForm {| sf_segmento := text |})
  | ClickLimpiarLinea => resetLineaForm
  | ClickGuardarLinea => saveLinea
  | ClickLimpiarSegmento => resetSegmentoForm
  | ClickGuardarSegmento => saveSegmento
  end.

(** The data the view can hold: what [data()] returns, and what any handler leaves
    behind, with the browser and the network in any condition. *)
Inductive reachable : data -> Prop :=
| reachable_initial : reachable initial
| reachable_step (d : data) (a : action) (net : network) (b : browser) :
    reachable d -> reachable (data_after (dispatch a net d b)).

(** In create mode the code field holds text. *)
Definition create_mode_code_is_text (d : data) : Prop :=
  isEditing d = false -> exists code, cod_producto (form d) = JStr code.

End View.
End Inventory.

(** ** The dashboard layout

    The component with the collapsible side bar and the user menu.  Its tooltips and
    toast are objects of the page (Bootstrap) and are not modelled: what is left of
    [toggleSidebar] is the flag, and [mounted] and [showToast] do nothing to the data,
    the storage or the router. *)

Module Layout.
Section View.
Context `{JsNumber}.

Record data : Type := {
  collapsed : bool;
}.

(** [data()]. *)
Definition initial : data := {| collapsed := false |}.

Definition toggleSidebar : M data unit :=
  assign (fun d => {| collapsed := negb (collapsed d) |}).

Definition logout : M data unit :=
  (localStorage_removeItem "token" ;;
   router_push "/login")%js.

End View.
End Layout.

(** ** The router ([router/index.js]) and the menu of the Home view

    Paths are compared as they are written: the paths that the views push are the
    declared ones, letter for letter. *)

Module Router.

Inductive view : Type := LoginView | HomeView | InventoryView.

Inductive target : Type :=
| Redirect (path : string)
| Component (v : view).

(** [routes]. *)
Definition routes : list (string * target) := [
  ("/", Redirect "/login");
  ("/login", Component LoginView);
  ("/home", Component HomeView);
  ("/inventory", Component InventoryView)
].

(** The record of the first route declared for [path]. *)
Fixpoint find (table : list (string * target)) (path : string) : option target :=
  match table with
  | [] => None
  | (p, t) :: table' => if bool_decide (p = path) then Some t else find table' path
  end.

(** The view shown for [path], following redirects at most [fuel] times. *)
Fixpoint resolve (fuel : nat) (path : string) : option view :=
  match find routes path with
  | Some (Component v) => Some v
  | Some (Redirect path') =>
      match fuel with
      | O => None
      | S fuel' => resolve fuel' path'
      end
  | None => None
  end.

Definition shows (path : string) : option view := resolve (List.length routes) path.

End Router.

Module HomeMenu.

Record item : Type := {
  title : string;
  description : string;
  icon : string;
  route : option string;
}.

(** [menuItems] of [Home.vue]. *)
Definition menuItems : list item := [
  {| title := "Ecommerce"; description := "Pedidos digitales y control de entregas.";
     icon := "bi-bag-check"; route := None |};
  {| title := "Finanzas"; description := "Caja diaria, egresos y resumen de flujo.";
     icon := "bi-cash-stack"; route := None |};
  {| title := "Inventarios"; description := "Stock por lote y movimientos por sucursal.";
     icon := "bi-box-seam"; route := Some "/inventory" |};
  {| title := "Contabilidad"; description := "Cierres mensuales y reportes contables.";
     icon := "bi-journal-text"; route := None |};
  {| title := "Gestion de TI"; description := "Seguridad, roles y soporte operativo.";
     icon := "bi-shield-lock"; route := None |}
].

(** [item.route ? 'router-link' : 'button'] *)
Definition is_link (i : item) : bool :=
  match route i with
  | Some path => Str.nonempty path
  | None => false
  end.

End HomeMenu.

Section NavigationVocabulary.
Context `{JsNumber}.

(** Every navigation among the effects [evs] goes to a path that shows the view [v]. *)
Definition navigates_to (v : Router.view) (evs : list event) : Prop :=
  Forall (fun e => forall path, e = EvPush path -> Router.shows path = Some v) evs.

End NavigationVocabulary.

(** ** Vocabulary for a session across the views *)

Section SessionVocabulary.
Context `{JsNumber}.

(** An entry of [Home.branches]: an object made of a code and a name. *)
Definition is_branch (v : jsval) : Prop := exists code name, v = Home.branch code name.

(** The Home view stays open: only the profile was requested, the token is kept, and
    the user is an administrator with a branch to work in. *)
Definition home_open (b : browser) (d' : Home.data) (b' : browser) : Prop :=
  exists t, localStorage b !! "token" = Some t /\ t <> "" /\
    b' = sent (Home.me_request ("Bearer " +:+ t)) b /\
    Home.role d' = JStr "administrador" /\
    Home.roleLabel d' = "Administrador" /\
    Home.canChooseBranch d' = true /\
    Home.branches d' <> [] /\ Forall is_branch (Home.branches d') /\
    Home.activeBranch d' = index (Home.branches d') 0 /\ is_branch (Home.activeBranch d').

(** The Home view was left for the login route: that push is the last effect, before
    it there is nothing or the profile request and the removal of the token, and no
    other key of the storage changed. *)
Definition home_closed (b b' : browser) : Prop :=
  route b' = "/login" /\
  (forall k, k <> "token" -> localStorage b' !! k = localStorage b !! k) /\
  exists evs, trace b' = trace b ++ evs ++ [EvPush "/login"] /\
    (evs = [] \/
     exists r, evs = [EvFetch r; EvRemoveItem "token"] /\ localStorage b' !! "token" = None).

(** A submission of the login form failed: one of the two messages is shown, and all
    the browser saw is the request. *)
Definition login_failed (d : Login.data) (b : browser) (d' : Login.data) (b' : browser) : Prop :=
  (Login.error d' = Some "Credenciales incorrectas" \/
   Login.error d' = Some "Error de conexion") /\
  b' = sent (Login.login_request d) b.

(** A submission succeeded: a text is stored under "token" and the router is at "/home". *)
Definition login_succeeded (d : Login.data) (b : browser) (d' : Login.data) (b' : browser) : Prop :=
  exists token,
    Login.error d' = Login.error d /\
    localStorage b' = <["token" := token]> (localStorage b) /\
    route b' = "/home" /\
    requests b' = S (requests b) /\
    trace b' = trace b ++ [EvFetch (Login.login_request d); EvSetItem "token" token; EvPush "/home"].

End SessionVocabulary.

(** ** Vocabulary for the catalogs of the Inventory view *)

Section InventoryVocabulary.
Context `{JsNumber}.
Import Inventory.

(** The [n]-th request of the session is answered, and when the response is ok its
    body is JSON other than [null]: [fetchCatalogs] does not throw on it. *)
Definition catalogs_answered (net : network) (n : nat) : Prop :=
  match net n with
  | NetFail => False
  | NetResp res =>
      res_ok res = true -> exists data, res_body res = Some data /\ nullish data = false
  end.

(** What [fetchCatalogs] makes of the data when it is answered with [data]. *)
Definition with_catalogs (data : jsval) (d : Inventory.data) : Inventory.data :=
  set_segmentos (js_or (get_opt data "segmentos") (JArr []))
    (set_lineas (js_or (get_opt data "lineas") (JArr [])) d).

(** Outside of edit mode no identifier is kept, and the two catalogs always hold a
    value that is truthy. *)
Definition well_formed (d : Inventory.data) : Prop :=
  (isEditing d = false -> editingId d = JNull) /\
  truthy (lineas d) = true /\
  truthy (segmentos d) = true.

End InventoryVocabulary.

(** ** The timer of the login view *)

Section LoginTimer.
Context `{JsNumber}.
Import Login.

(** The interval started by [mounted] firing [n] times before [beforeUnmount] clears
    it: the callback runs once per firing. *)
Fixpoint ticks (n : nat) : M data unit :=
  match n with
  | O => ret tt
  | S n' => (tick ;; ticks n')%js
  end.

End LoginTimer.

(** ** Sample inputs

    Browsers, networks and records to run the views on, with integers for numbers. *)

Module Sample.
Import IntNum.

Definition object (l : list (string * jsval)) : jsval := JObj (list_to_map l).

(** No token: a visitor who never logged in. *)
Definition fresh : browser :=
  {| localStorage := ∅; route := "/inventory"; requests := 0; trace := [] |}.

(** A token left by an earlier login. *)
Definition signed_in : browser :=
  {| localStorage := {["token" := "abc"]}; route := "/home"; requests := 0; trace := [] |}.

Definition offline : network := fun _ => NetFail.
Definition refusing : network := fun _ => NetResp {| res_ok := false; res_body := None |}.
Definition replying (v : jsval) : network :=
  fun _ => NetResp {| res_ok := true; res_body := Some v |}.

Definition admin_profile : jsval :=
  object [("full_name", JStr "Ana Admin");
          ("email", JStr "ana@example.com");
          ("roles", JArr [object [("name", JStr "administrador")]]);
          ("branches", JArr [object [("code", JStr "esteli"); ("name", JStr "Esteli")]])].

Definition seller_profile : jsval :=
  object [("full_name", JStr "Luis Ventas");
          ("email", JStr "luis@example.com");
          ("roles", JArr [object [("name", JStr "vendedor")]]);
          ("branches", JArr [])].

Definition token_reply : jsval :=
  object [("access_token", JStr "abc"); ("token_type", JStr "bearer")].

Definition camisa_id : jsval := JNum (Some 7%Z).

Definition camisa : jsval :=
  object [("id", camisa_id);
          ("cod_producto", JStr "A1");
          ("descripcion", JStr "Camisa");
          ("activo", JBool true)].

Definition pantalon : jsval :=
  object [("id", JNum (Some 8%Z));
          ("cod_producto", JStr "B2");
          ("descripcion", JStr "Pantalon");
          ("marca", JStr "Acme");
          ("activo", JBool true)].

(** The Inventory view after "Editar" on [camisa]. *)
Definition editing : Inventory.data :=
  data_after (Inventory.editProduct camisa offline Inventory.initial signed_in).

(** The Inventory view with two products listed and "a1 cam" in the search box. *)
Definition searching : Inventory.data :=
  Inventory.set_search "a1 cam"
    (Inventory.set_products (JArr [camisa; pantalon]) Inventory.initial).

(** The login form, filled in. *)
Definition filled_in : Login.data :=
  Login.set_password "secreto" (Login.set_email "ana" Login.initial).

(** The catalogs as the backend lists them: one line, and no [segmentos] property. *)
Definition ropa : jsval := object [("id", JNum (Some 1%Z)); ("linea", JStr "Ropa")].
Definition catalogs_reply : jsval := object [("lineas", JArr [ropa])].

(** The same two products with " A1" in the search box. *)
Definition searching_a1 : Inventory.data :=
  Inventory.set_search " A1" (Inventory.set_products (JArr [camisa; pantalon]) Inventory.initial).

End Sample.

(** * Properties *)

(** Unfolds the monadic plumbing of a method and evaluates what the browser record
    determines, leaving the reads of storage, of the network and of values in place. *)
Ltac run :=
  cbv beta iota zeta delta
    [bind ret throw try_catch lift this assign fetch json outcome_bind
     localStorage_getItem localStorage_setItem localStorage_removeItem router_push];
  cbn [localStorage route requests trace sent res_ok res_body negb of_nullable].

Section BasicFacts.
Context `{JsNumber}.

Lemma truthy_JStr (s : string) : truthy (JStr s) = true <-> s <> "".
Proof. destruct s; cbn; split; congruence. Qed.

Lemma get_Done_nullish (v x : jsval) (k : string) :
  get v k = Done x -> nullish v = false.
Proof. destruct v; cbn; congruence. Qed.

Lemma get_total (v : jsval) (k : string) :
  nullish v = false -> exists x, get v k = Done x.
Proof. destruct v; cbn; try congruence; eauto. Qed.

Lemma get_same_outcome (v x : jsval) (k k' : string) :
  get v k = Done x -> exists y, get v k' = Done y.
Proof. intros Hk. apply get_total. eapply get_Done_nullish, Hk. Qed.

Lemma js_or_strict_eq (v : jsval) (s t : string) :
  s <> "" -> t <> s ->
  strict_eq_str (js_or v (JStr t)) s = strict_eq_str v s.
Proof.
  intros Hs Hts. unfold js_or.
  destruct (truthy v) eqn:Hv; [reflexivity|].
  cbn. rewrite bool_decide_eq_false_2 by done.
  destruct v; cbn in *; try reflexivity.
  destruct s0; [|discriminate].
  rewrite bool_decide_eq_false_2; [reflexivity|congruence].
Qed.

Lemma strict_eq_str_true (v : jsval) (s : string) :
  strict_eq_str v s = true <-> v = JStr s.
Proof.
  destruct v; cbn; try (split; congruence).
  rewrite bool_decide_eq_true. split; congruence.
Qed.

End BasicFacts.

(** ** Strings *)

Section StringFacts.
Import Str.

Lemma prefix_empty (s : string) : String.prefix "" s = true.
Proof. by destruct s. Qed.

Lemma prefix_cons (c x : ascii) (q s : string) :
  String.prefix (String c q) (String x s) = bool_decide (c = x) && String.prefix q s.
Proof. cbn. by destruct (ascii_dec c x); [rewrite bool_decide_eq_true_2|rewrite bool_decide_eq_false_2]. Qed.

Lemma prefix_of_empty (q : string) : String.prefix q "" = true -> q = "".
Proof. by destruct q. Qed.

Lemma prefix_app_r (q a y : string) :
  String.prefix q a = true -> String.prefix q (a +:+ y) = true.
Proof.
  revert q. induction a as [|x a IH]; intros q Hq.
  - apply prefix_of_empty in Hq as ->. apply prefix_empty.
  - destruct q as [|c q]; [reflexivity|].
    change (String x a +:+ y) with (String x (a +:+ y)).
    rewrite prefix_cons in *. apply andb_true_iff in Hq as [-> Hq].
    by rewrite (IH q Hq).
Qed.

Lemma includes_empty (s : string) : includes s "" = true.
Proof. destruct s; cbn [includes]; by rewrite prefix_empty. Qed.

Lemma includes_app_r (a y q : string) :
  includes a q = true -> includes (a +:+ y) q = true.
Proof.
  induction a as [|x a IH]; cbn [includes]; intros Hq.
  - rewrite orb_false_r in Hq. apply prefix_of_empty in Hq as ->. apply includes_empty.
  - change (String x a +:+ y) with (String x (a +:+ y)). cbn [includes].
    apply orb_true_iff in Hq as [Hq|Hq]; apply orb_true_iff.
    + left. by apply (prefix_app_r q (String x a) y).
    + right. by apply IH.
Qed.

Lemma includes_app_l (x a q : string) :
  includes a q = true -> includes (x +:+ a) q = true.
Proof.
  intros Hq. induction x as [|c x IH]; [exact Hq|].
  change (String c x +:+ a) with (String c (x +:+ a)). cbn [includes].
  rewrite IH. apply orb_true_r.
Qed.

Lemma includes_char (c : ascii) (s : string) :
  includes s (String c "") = mentions c s.
Proof.
  induction s as [|x s IH]; [reflexivity|].
  cbn [includes mentions]. rewrite prefix_cons, prefix_empty, andb_true_r. by rewrite IH.
Qed.

Lemma prefix_before_char (q a b : string) (c : ascii) :
  mentions c q = false ->
  String.prefix q (a +:+ String c b) = true -> String.prefix q a = true.
Proof.
  revert a. induction q as [|x q IH]; intros a Hc Hq; [apply prefix_empty|].
  cbn [mentions] in Hc. apply orb_false_iff in Hc as [Hx Hc].
  destruct a as [|y a].
  - change ("" +:+ String c b) with (String c b) in Hq.
    rewrite prefix_cons in Hq. apply andb_true_iff in Hq as [Hq _].
    apply bool_decide_eq_true in Hq. apply bool_decide_eq_false in Hx. congruence.
  - change (String y a +:+ String c b) with (String y (a +:+ String c b)) in Hq.
    rewrite prefix_cons in *. apply andb_true_iff in Hq as [-> Hq].
    by rewrite (IH a Hc Hq).
Qed.

Lemma includes_split_at_char (a b q : string) (c : ascii) :
  mentions c q = false ->
  includes (a +:+ String c b) q = true ->
  includes a q = true \/ includes b q = true.
Proof.
  intros Hc. induction a as [|y a IH]; intros Hq.
  - change ("" +:+ String c b) with (String c b) in Hq. cbn [includes] in Hq.
    apply orb_true_iff in Hq as [Hq|Hq]; [|by right].
    left. apply (prefix_before_char q "" b c Hc) in Hq.
    apply prefix_of_empty in Hq as ->. reflexivity.
  - change (String y a +:+ String c b) with (String y (a +:+ String c b)) in Hq.
    cbn [includes] in Hq. apply orb_true_iff in Hq as [Hq|Hq].
    + left. cbn [includes]. apply orb_true_iff. left.
      by apply (prefix_before_char q (String y a) b c Hc).
    + destruct (IH Hq) as [Ha|Hb]; [left|by right].
      cbn [includes]. rewrite Ha. apply orb_true_r.
Qed.

Lemma join_cons (sep s : string) (l : list string) :
  l <> [] -> join sep (s :: l) = s +:+ sep +:+ join sep l.
Proof. by destruct l. Qed.

Lemma includes_join_elem (sep w q : string) (l : list string) :
  In w l -> includes w q = true -> includes (join sep l) q = true.
Proof.
  intros Hin Hq. induction l as [|s l IH]; [destruct Hin|].
  destruct l as [|s' l].
  - destruct Hin as [->|[]]. exact Hq.
  - rewrite join_cons by discriminate. destruct Hin as [->|Hin].
    + by apply includes_app_r.
    + apply includes_app_l, includes_app_l. by apply IH.
Qed.

Lemma includes_join_split (c : ascii) (q : string) (l : list string) :
  q <> "" -> mentions c q = false ->
  includes (join (String c "") l) q = true ->
  exists w, In w l /\ includes w q = true.
Proof.
  intros Hne Hc. induction l as [|s l IH]; intros Hq.
  - cbn in Hq. rewrite orb_false_r in Hq. by apply prefix_of_empty in Hq.
  - destruct l as [|s' l].
    + exists s. split; [by left|exact Hq].
    + rewrite join_cons in Hq by discriminate.
      apply (includes_split_at_char s _ q c Hc) in Hq as [Hq|Hq].
      * exists s. split; [by left|exact Hq].
      * destruct (IH Hq) as (w & Hin & Hw). exists w. split; [by right|exact Hw].
Qed.

Lemma nonempty_true (s : string) : nonempty s = true <-> s <> "".
Proof. destruct s; cbn; split; congruence. Qed.

End StringFacts.

Section TextFacts.
Context `{JsText}.
Import Str.

(** Lower-casing a text joined by spaces lower-cases its parts. *)
Lemma toLowerCase_join_space (l : list string) :
  toLowerCase (join " " l) = join " " (map toLowerCase l).
Proof.
  induction l as [|s l IH]; [apply toLowerCase_empty|].
  destruct l as [|s' l]; [reflexivity|].
  rewrite join_cons by discriminate. rewrite toLowerCase_space, IH.
  cbn [map]. by rewrite (join_cons _ (toLowerCase s)).
Qed.

End TextFacts.

(** ** The session guard of the Home view *)

Section HomeFacts.
Context `{JsNumber}.
Import Home.

#[local] Ltac fields :=
  cbn [displayName role branches activeBranch accessError
       set_displayName set_role set_branches set_activeBranch set_accessError
       localStorage route requests trace sent fst snd].

(** Without a token (none stored, or the empty string) [mounted] only navigates to the
    login route: no request is made, the data and the storage are untouched. *)
Lemma home_mounted_without_token (net : network) (d : data) (b : browser) :
  truthy (of_nullable (localStorage b !! "token")) = false ->
  mounted net d b =
    (Done tt, d,
     {| localStorage := localStorage b; route := "/login"; requests := requests b;
        trace := trace b ++ [EvPush "/login"] |}).
Proof.
  intros Hnone. unfold mounted. run.
  destruct (localStorage b !! "token") as [t|]; cbn [of_nullable] in *;
    rewrite Hnone; reflexivity.
Qed.

(** C2. A stored token that the profile endpoint rejects (a response that is not ok), or
    whose profile request fails on the network, is removed from local storage and the
    view navigates to the login route; the profile request is the only one made.  The
    token is not the empty string: for [!token] that is no token, and no request is
    made for it ([home_mounted_without_token]). *)
Theorem home_rejected_token_is_cleared
    (net : network) (d : data) (b : browser) (t : string) :
  localStorage b !! "token" = Some t ->
  t <> "" ->
  profile_call_fails net b ->
  let r := mounted net d b in
  outcome_of r = Done tt /\
  data_after r = set_accessError (Some "Sesion invalida") d /\
  localStorage (browser_after r) !! "token" = None /\
  logged_out b t (browser_after r).
Proof.
  intros Htok Hne Hfail r. subst r.
  unfold mounted, load_profile, logout, logged_out. run. rewrite Htok.
  apply truthy_JStr in Hne. cbn [of_nullable]. rewrite Hne. run.
  assert (Hdel : delete "token" (localStorage b) !! "token" = None)
    by apply lookup_delete_eq.
  destruct Hfail as [Hnet | (res & Hnet & Hok)]; rewrite Hnet; run.
  - cbn. rewrite <- !app_assoc. auto 10.
  - rewrite Hok. run. cbn. rewrite <- !app_assoc. auto 10.
Qed.

Lemma role_of_first (x : jsval) :
  strict_eq_str (js_or x (JStr "usuario")) "administrador" = strict_eq_str x "administrador".
Proof. apply js_or_strict_eq; discriminate. Qed.

Lemma display_name_of_Thrown (v : jsval) (e : exn) :
  display_name_of v = Thrown e -> nullish v = true.
Proof.
  unfold display_name_of. destruct v; cbn; try reflexivity;
    repeat match goal with |- context [if ?c then _ else _] => destruct c end;
    discriminate.
Qed.

Lemma role_names_nullish (v : jsval) :
  nullish v = true -> role_names v = Thrown TypeError.
Proof. destruct v; cbn; congruence. Qed.

(** What [mounted] leaves behind once the profile has arrived, by the three values read
    from it. *)
Lemma home_mounted_profile
    (net : network) (d : data) (b : browser) (t : string) (profile : jsval) :
  localStorage b !! "token" = Some t ->
  t <> "" ->
  profile_answer net b profile ->
  let b1 := sent (me_request ("Bearer " +:+ t)) b in
  let b2 := {| localStorage := delete "token" (localStorage b); route := "/login";
               requests := S (requests b);
               trace := trace b ++ [EvFetch (me_request ("Bearer " +:+ t));
                                    EvRemoveItem "token"; EvPush "/login"] |} in
  let invalid := set_accessError (Some "Sesion invalida") in
  mounted net d b =
    match display_name_of profile with
    | Thrown _ => (Done tt, invalid d, b2)
    | Done name =>
        let d1 := set_displayName name d in
        match role_names profile with
        | Thrown _ => (Done tt, invalid d1, b2)
        | Done roleNames =>
            let d2 := set_role (js_or (index roleNames 0) (JStr "usuario")) d1 in
            match branches_of profile with
            | Thrown _ => (Done tt, invalid d2, b2)
            | Done mapped =>
                let d3 := set_activeBranch (index mapped 0) (set_branches mapped d2) in
                if strict_eq_str (index roleNames 0) "administrador"
                then (Done tt, d3, b1)
                else (Done tt,
                      set_accessError (Some "Acceso exclusivo para administradores") d3,
                      b2)
            end
        end
    end.
Proof.
  intros Htok Hne (res & Hnet & Hok & Hbody).
  unfold mounted, load_profile, logout. run. rewrite Htok.
  apply truthy_JStr in Hne. cbn [of_nullable]. rewrite Hne. run.
  rewrite Hnet, Hok, Hbody. run. cbn [to_string].
  destruct (display_name_of profile) as [name|]; [|fields; by rewrite <- !app_assoc].
  destruct (role_names profile) as [roleNames|]; [|fields; by rewrite <- !app_assoc].
  destruct (branches_of profile) as [mapped|]; [|fields; by rewrite <- !app_assoc].
  fields. rewrite role_of_first.
  destruct (strict_eq_str (index roleNames 0) "administrador"); cbn [negb]; fields;
    by rewrite <- ?app_assoc.
Qed.

(** C3. Once the profile has arrived: if its first role name is "administrador" the
    role is set to it and [canChooseBranch] holds (and, when the branch list can be
    read, the view stays where it is, token kept); for every other first role name,
    and when none can be read, the token is removed and the view navigates to the
    login route. *)
Theorem home_role_gate
    (net : network) (d : data) (b : browser) (t : string) (profile : jsval) :
  localStorage b !! "token" = Some t ->
  t <> "" ->
  profile_answer net b profile ->
  let r := mounted net d b in
  (first_role_name profile = Done (JStr "administrador") ->
     role (data_after r) = JStr "administrador" /\
     canChooseBranch (data_after r) = true /\
     forall bs, branches_of profile = Done bs ->
       branches (data_after r) = bs /\
       accessError (data_after r) = accessError d /\
       stays b t (browser_after r)) /\
  (first_role_name profile <> Done (JStr "administrador") ->
     localStorage (browser_after r) !! "token" = None /\
     logged_out b t (browser_after r)).
Proof.
  intros Htok Hne Hans r. subst r.
  rewrite (home_mounted_profile net d b t profile Htok Hne Hans).
  assert (Hdel : delete "token" (localStorage b) !! "token" = None)
    by apply lookup_delete_eq.
  unfold first_role_name, logged_out, stays, data_after, browser_after.
  destruct (display_name_of profile) as [name|e] eqn:Hname.
  - destruct (role_names profile) as [roleNames|]; cbn [outcome_bind].
    + destruct (strict_eq_str (index roleNames 0) "administrador") eqn:Hadmin.
      * apply strict_eq_str_true in Hadmin. rewrite Hadmin. split; [intros _|done].
        destruct (branches_of profile) as [mapped|]; fields;
          (split; [reflexivity|]); (split; [reflexivity|]); [|done].
        by intros bs [= <-].
      * split.
        { intros [= Hfirst]. rewrite Hfirst in Hadmin. discriminate. }
        intros _. destruct (branches_of profile); fields; auto.
    + split; [discriminate|]. intros _. fields. auto.
  - apply display_name_of_Thrown, role_names_nullish in Hname. rewrite Hname.
    cbn [outcome_bind]. split; [discriminate|]. intros _. fields. auto.
Qed.

Lemma branches_of_default (profile : jsval) :
  no_branches profile -> branches_of profile = Done [central].
Proof.
  intros (bs & Hbs & [Hfalsy | ->]); unfold branches_of; rewrite Hbs; cbn [outcome_bind].
  - rewrite Hfalsy. cbn [outcome_bind]. by rewrite Hfalsy.
  - cbn [truthy get List.length]. rewrite bool_decide_eq_true_2 by reflexivity.
    cbn [outcome_bind truthy]. by rewrite num_truthy_of_nat.
Qed.

(** A profile whose roles can be read and that lists no branch gets the single branch
    "Central", which becomes the active one. *)
Theorem home_default_branch
    (net : network) (d : data) (b : browser) (t : string) (profile x : jsval) :
  localStorage b !! "token" = Some t ->
  t <> "" ->
  profile_answer net b profile ->
  first_role_name profile = Done x ->
  no_branches profile ->
  let r := mounted net d b in
  branches (data_after r) = [central] /\ activeBranch (data_after r) = central.
Proof.
  intros Htok Hne Hans Hfirst Hnone r. subst r.
  rewrite (home_mounted_profile net d b t profile Htok Hne Hans).
  rewrite (branches_of_default profile Hnone).
  unfold first_role_name in Hfirst.
  destruct (display_name_of profile) as [name|e] eqn:Hname.
  - destruct (role_names profile) as [roleNames|]; [|discriminate].
    by destruct (strict_eq_str (index roleNames 0) "administrador").
  - apply display_name_of_Thrown, role_names_nullish in Hname.
    rewrite Hname in Hfirst. discriminate.
Qed.

End HomeFacts.

(** ** The login form *)

Section LoginFacts.
Context `{JsNumber}.
Import Login.

#[local] Ltac fields :=
  cbn [email password remember error phraseIndex
       set_email set_password set_remember set_error set_phraseIndex
       localStorage route requests trace sent fst snd].

(** The request carries the e-mail and the password and nothing else. *)
Lemma login_request_body (d : data) :
  req_body (login_request d) =
    Some (JObj (<["email" := JStr (email d)]> (<["password" := JStr (password d)]> ∅))).
Proof.
  unfold login_request, credentials, JSON_stringify. cbn [req_body json_of].
  rewrite (omap_insert_Some _ _ _ _ (JStr (email d))) by reflexivity.
  rewrite (omap_insert_Some _ _ _ _ (JStr (password d))) by reflexivity.
  by rewrite omap_empty.
Qed.

(** What one submission does, by what the network does with its request. *)
Lemma login_run (net : network) (d : data) (b : browser) :
  let b1 := sent (login_request d) b in
  login net d b =
    match net (requests b) with
    | NetFail => (Done tt, set_error (Some "Error de conexion") d, b1)
    | NetResp res =>
        if res_ok res then
          match outcome_bind
                  (match res_body res with Some v => Done v | None => Thrown SyntaxError end)
                  (fun data => get data "access_token") with
          | Done access_token =>
              (Done tt, d,
               {| localStorage := <["token" := to_string access_token]> (localStorage b);
                  route := "/home"; requests := S (requests b);
                  trace := trace b ++ [EvFetch (login_request d);
                                       EvSetItem "token" (to_string access_token);
                                       EvPush "/home"] |})
          | Thrown _ => (Done tt, set_error (Some "Error de conexion") d, b1)
          end
        else (Done tt, set_error (Some "Credenciales incorrectas") d, b1)
    end.
Proof.
  unfold login. run.
  destruct (net (requests b)) as [|res]; [reflexivity|].
  destruct (res_ok res); cbn [negb]; [|reflexivity].
  destruct (res_body res) as [data|]; [|reflexivity].
  destruct (get data "access_token"); [|reflexivity].
  fields. by rewrite <- !app_assoc.
Qed.

(** C5. One submission of the login form: a response that is not ok sets the error to
    "Credenciales incorrectas" and neither navigates nor writes to storage; a request
    that fails on the network sets the error to "Error de conexion"; a response that
    is ok stores the access token it returned under "token" and navigates to "/home". *)
Theorem login_outcomes (net : network) (d : data) (b : browser) :
  let r := login net d b in
  (forall res, net (requests b) = NetResp res -> res_ok res = false ->
     error (data_after r) = Some "Credenciales incorrectas" /\
     localStorage (browser_after r) = localStorage b /\
     route (browser_after r) = route b /\
     trace (browser_after r) = trace b ++ [EvFetch (login_request d)]) /\
  (net (requests b) = NetFail ->
     error (data_after r) = Some "Error de conexion" /\
     localStorage (browser_after r) = localStorage b /\
     route (browser_after r) = route b /\
     trace (browser_after r) = trace b ++ [EvFetch (login_request d)]) /\
  (forall res data access_token,
     net (requests b) = NetResp res -> res_ok res = true ->
     res_body res = Some data -> get data "access_token" = Done access_token ->
     localStorage (browser_after r) = <["token" := to_string access_token]> (localStorage b) /\
     localStorage (browser_after r) !! "token" = Some (to_string access_token) /\
     route (browser_after r) = "/home" /\
     trace (browser_after r) =
       trace b ++ [EvFetch (login_request d);
                   EvSetItem "token" (to_string access_token); EvPush "/home"] /\
     error (data_after r) = error d).
Proof.
  intros r. subst r. rewrite login_run.
  unfold data_after, browser_after. split; [|split].
  - intros res Hnet Hok. rewrite Hnet, Hok. by fields.
  - intros Hnet. rewrite Hnet. by fields.
  - intros res data tok Hnet Hok Hbody Hget.
    rewrite Hnet, Hok, Hbody. cbn [outcome_bind]. rewrite Hget. fields.
    split; [reflexivity|]. split; [apply lookup_insert_eq|]. by repeat split.
Qed.

(** C9. The "Mantener sesion" check box has no effect on a submission: whatever it
    holds, the request (e-mail and password only), the storage, the route, the log of
    effects and the displayed error are the same, and the box keeps its value. *)
Theorem login_ignores_remember (net : network) (d : data) (b : browser) (x y : bool) :
  let rx := login net (set_remember x d) b in
  let ry := login net (set_remember y d) b in
  login_request (set_remember x d) = login_request (set_remember y d) /\
  req_body (login_request (set_remember x d)) =
    Some (JObj (<["email" := JStr (email d)]> (<["password" := JStr (password d)]> ∅))) /\
  outcome_of rx = outcome_of ry /\
  browser_after rx = browser_after ry /\
  error (data_after rx) = error (data_after ry) /\
  data_after rx = set_remember x (data_after ry).
Proof.
  intros rx ry. subst rx ry. rewrite !login_run.
  split; [reflexivity|]. split; [exact (login_request_body (set_remember x d))|].
  change (login_request (set_remember x d)) with (login_request (set_remember y d)).
  destruct (net (requests b)) as [|res]; [by repeat split|].
  destruct (res_ok res); [|by repeat split].
  destruct (outcome_bind _ _); by repeat split.
Qed.

(** The timer started by [mounted] only moves to the next phrase: there is always a
    phrase to show, and neither the form nor the browser is touched. *)
Theorem tick_keeps_phrase (net : network) (d : data) (b : browser) :
  let r := tick net d b in
  is_Some (currentPhrase (data_after r)) /\ browser_after r = b /\
  email (data_after r) = email d /\ password (data_after r) = password d /\
  remember (data_after r) = remember d /\ error (data_after r) = error d.
Proof.
  intros r. subst r. unfold tick, assign, data_after, browser_after, currentPhrase.
  cbn [fst snd phraseIndex set_phraseIndex email password remember error].
  split; [|done]. apply lookup_lt_is_Some.
  apply Nat.mod_upper_bound. discriminate.
Qed.

End LoginFacts.

(** ** The product reconciler of the Inventory view *)

Section InventoryFacts.
Context `{JsNumber} `{JsText}.
Import Inventory.

#[local] Ltac fields :=
  cbn [products lineas segmentos includeInactive isEditing editingId search
       showLineaForm showSegmentoForm lineaForm segmentoForm form
       set_products set_lineas set_segmentos set_includeInactive set_isEditing
       set_editingId set_search set_showLineaForm set_showSegmentoForm
       set_lineaForm set_segmentoForm set_form reset
       localStorage route requests trace sent fst snd].

Lemma resetForm_run (net : network) (d : data) (b : browser) :
  resetForm net d b = (Done tt, reset d, b).
Proof. reflexivity. Qed.

(** The refetch of the collection: one request; the list is replaced when the response
    is ok and its body is JSON. *)
Lemma fetchProducts_run (net : network) (d : data) (b : browser) :
  let b1 := sent (products_request (localStorage b !! "token") (includeInactive d)) b in
  fetchProducts net d b =
    match net (requests b) with
    | NetFail => (Thrown NetworkError, d, b1)
    | NetResp res =>
        if res_ok res then
          match res_body res with
          | Some list => (Done tt, set_products list d, b1)
          | None => (Thrown SyntaxError, d, b1)
          end
        else (Done tt, d, b1)
    end.
Proof.
  unfold fetchProducts. run.
  destruct (net (requests b)) as [|res]; [reflexivity|].
  destruct (res_ok res); [|reflexivity].
  by destruct (res_body res).
Qed.

(** The refetch of the catalogs. *)
Lemma fetchCatalogs_run (net : network) (d : data) (b : browser) :
  let b1 := sent (catalogs_request (localStorage b !! "token")) b in
  fetchCatalogs net d b =
    match net (requests b) with
    | NetFail => (Thrown NetworkError, d, b1)
    | NetResp res =>
        if res_ok res then
          match res_body res with
          | Some data =>
              match get data "lineas", get data "segmentos" with
              | Done ls, Done ss =>
                  (Done tt, set_segmentos (js_or ss (JArr [])) (set_lineas (js_or ls (JArr [])) d), b1)
              | _, _ => (Thrown TypeError, d, b1)
              end
          | None => (Thrown SyntaxError, d, b1)
          end
        else (Done tt, d, b1)
    end.
Proof.
  unfold fetchCatalogs. run.
  destruct (net (requests b)) as [|res]; [reflexivity|].
  destruct (res_ok res); [|reflexivity].
  destruct (res_body res) as [data|]; [|reflexivity].
  destruct data; reflexivity.
Qed.

(** Neither refetch touches the storage, the route, the form or the mode, and each
    makes exactly one request. *)
Lemma fetchProducts_frame (net : network) (d : data) (b : browser) :
  let r := fetchProducts net d b in
  browser_after r = sent (products_request (localStorage b !! "token") (includeInactive d)) b /\
  set_products (products d) (data_after r) = d.
Proof.
  intros r. subst r. rewrite fetchProducts_run.
  destruct (net (requests b)) as [|res]; [by destruct d|].
  destruct (res_ok res); [|by destruct d].
  destruct (res_body res); by destruct d.
Qed.

(** The payload of [saveProduct], property by property. *)
Lemma payload_linea_id (d : data) :
  payload_of d !! "linea_id" = Some (js_or (linea_id (form d)) JNull).
Proof.
  unfold payload_of, or_null, spread. cbn [list_to_map foldr uncurry fst snd].
  destruct (isEditing d); by simplify_map_eq.
Qed.

Lemma payload_segmento_id (d : data) :
  payload_of d !! "segmento_id" = Some (js_or (segmento_id (form d)) JNull).
Proof.
  unfold payload_of, or_null, spread. cbn [list_to_map foldr uncurry fst snd].
  destruct (isEditing d); by simplify_map_eq.
Qed.

Lemma payload_cod_producto (d : data) :
  payload_of d !! "cod_producto" =
    if isEditing d then None else Some (cod_producto (form d)).
Proof.
  unfold payload_of, or_null, spread. cbn [list_to_map foldr uncurry fst snd].
  destruct (isEditing d); by simplify_map_eq.
Qed.

Lemma save_request_body (token : option string) (d : data) :
  req_body (save_request token d) = Some (JObj (omap json_of (payload_of d))).
Proof. reflexivity. Qed.

(** What each method does, by what the network does with its requests. *)
Lemma saveProduct_run (net : network) (d : data) (b : browser) :
  let b1 := sent (save_request (localStorage b !! "token") d) b in
  saveProduct net d b =
    match net (requests b) with
    | NetFail => (Thrown NetworkError, d, b1)
    | NetResp res =>
        if res_ok res then
          match fetchProducts net d b1 with
          | (Done _, d2, b2) => (Done tt, reset d2, b2)
          | (Thrown e, d2, b2) => (Thrown e, d2, b2)
          end
        else (Done tt, d, b1)
    end.
Proof.
  unfold saveProduct. run.
  destruct (net (requests b)) as [|res]; [reflexivity|].
  destruct (res_ok res); [|reflexivity].
  destruct (fetchProducts net d _) as [[[]]]; reflexivity.
Qed.

Lemma deactivateProduct_run (net : network) (d : data) (b : browser) (producto : jsval) :
  deactivateProduct producto net d b =
    match get producto "id" with
    | Thrown e => (Thrown e, d, b)
    | Done id =>
        let b1 := sent (deactivate_request (localStorage b !! "token") id) b in
        match net (requests b) with
        | NetFail => (Thrown NetworkError, d, b1)
        | NetResp _ => fetchProducts net d b1
        end
    end.
Proof.
  unfold deactivateProduct. run.
  destruct (get producto "id"); [|reflexivity].
  destruct (net (requests b)) as [|res]; [reflexivity|].
  destruct (fetchProducts net d _) as [[[]]]; reflexivity.
Qed.

Lemma saveLinea_run (net : network) (d : data) (b : browser) :
  let b1 := sent (linea_request (localStorage b !! "token") d) b in
  saveLinea net d b =
    match net (requests b) with
    | NetFail => (Thrown NetworkError, d, b1)
    | NetResp res =>
        if res_ok res then
          match fetchCatalogs net d b1 with
          | (Done _, d2, b2) => (Done tt, set_lineaForm empty_lineaForm d2, b2)
          | (Thrown e, d2, b2) => (Thrown e, d2, b2)
          end
        else (Done tt, d, b1)
    end.
Proof.
  unfold saveLinea. run.
  destruct (net (requests b)) as [|res]; [reflexivity|].
  destruct (res_ok res); [|reflexivity].
  destruct (fetchCatalogs net d _) as [[[]]]; reflexivity.
Qed.

Lemma saveSegmento_run (net : network) (d : data) (b : browser) :
  let b1 := sent (segmento_request (localStorage b !! "token") d) b in
  saveSegmento net d b =
    match net (requests b) with
    | NetFail => (Thrown NetworkError, d, b1)
    | NetResp res =>
        if res_ok res then
          match fetchCatalogs net d b1 with
          | (Done _, d2, b2) => (Done tt, set_segmentoForm empty_segmentoForm d2, b2)
          | (Thrown e, d2, b2) => (Thrown e, d2, b2)
          end
        else (Done tt, d, b1)
    end.
Proof.
  unfold saveSegmento. run.
  destruct (net (requests b)) as [|res]; [reflexivity|].
  destruct (res_ok res); [|reflexivity].
  destruct (fetchCatalogs net d _) as [[[]]]; reflexivity.
Qed.

Lemma mounted_run (net : network) (d : data) (b : browser) :
  mounted net d b =
    match fetchCatalogs net d b with
    | (Done _, d1, b1) => fetchProducts net d1 b1
    | (Thrown e, d1, b1) => (Thrown e, d1, b1)
    end.
Proof.
  unfold mounted. run.
  destruct (fetchCatalogs net d b) as [[[]]]; [|reflexivity].
  destruct (fetchProducts net _ _) as [[[]]]; reflexivity.
Qed.


(** The methods that leave the mode and the product form alone. *)
Lemma fetchProducts_same_form net d b : same_form d (data_after (fetchProducts net d b)).
Proof.
  rewrite fetchProducts_run. unfold same_form, data_after.
  repeat match goal with |- context [match ?x with _ => _ end] => destruct x end; by fields.
Qed.

Lemma fetchCatalogs_same_form net d b : same_form d (data_after (fetchCatalogs net d b)).
Proof.
  rewrite fetchCatalogs_run. unfold same_form, data_after.
  repeat match goal with |- context [match ?x with _ => _ end] => destruct x end; by fields.
Qed.

Lemma editProduct_run (net : network) (d : data) (b : browser) (producto : jsval) :
  editProduct producto net d b =
    match get producto "id" with
    | Thrown e => (Thrown e, set_isEditing true d, b)
    | Done id =>
        (Done tt, set_form (form_of producto) (set_editingId id (set_isEditing true d)), b)
    end.
Proof.
  unfold editProduct, form_of. run. destruct producto; reflexivity.
Qed.

Lemma same_form_refl d : same_form d d.
Proof. by unfold same_form. Qed.

Lemma same_form_trans d1 d2 d3 : same_form d1 d2 -> same_form d2 d3 -> same_form d1 d3.
Proof. unfold same_form. intros (-> & -> & ->) (-> & -> & ->). done. Qed.

Lemma create_mode_code_same_form d d' :
  same_form d d' -> create_mode_code_is_text d -> create_mode_code_is_text d'.
Proof. unfold same_form, create_mode_code_is_text. intros (-> & _ & ->). done. Qed.

Lemma create_mode_code_reset d : create_mode_code_is_text (reset d).
Proof. intros _. by exists "". Qed.

Lemma saveProduct_keeps_or_resets net d b :
  let d' := data_after (saveProduct net d b) in
  same_form d d' \/ exists d2, d' = reset d2.
Proof.
  cbn zeta. rewrite saveProduct_run.
  destruct (net (requests b)) as [|res]; [left; apply same_form_refl|].
  destruct (res_ok res); [|left; apply same_form_refl].
  pose proof (fetchProducts_same_form net d
    (sent (save_request (localStorage b !! "token") d) b)) as Hsame.
  destruct (fetchProducts net d _) as [[[] d2] b2]; unfold data_after in *; cbn [fst snd] in *; eauto.
Qed.

Lemma mounted_same_form net d b : same_form d (data_after (mounted net d b)).
Proof.
  rewrite mounted_run.
  pose proof (fetchCatalogs_same_form net d b) as Hcat.
  destruct (fetchCatalogs net d b) as [[[] d1] b1]; [|exact Hcat].
  eapply same_form_trans; [exact Hcat|apply fetchProducts_same_form].
Qed.

Lemma changeIncludeInactive_same_form checked net d b :
  same_form d (data_after (changeIncludeInactive checked net d b)).
Proof.
  unfold changeIncludeInactive. run.
  pose proof (fetchProducts_same_form net (set_includeInactive checked d) b) as Hsame.
  destruct (fetchProducts net _ b) as [[[] d1] b1]; exact Hsame.
Qed.

Lemma deactivateProduct_same_form producto net d b :
  same_form d (data_after (deactivateProduct producto net d b)).
Proof.
  rewrite deactivateProduct_run.
  destruct (get producto "id"); [|apply same_form_refl].
  cbn zeta. destruct (net (requests b)); [apply same_form_refl|].
  apply fetchProducts_same_form.
Qed.

Lemma saveLinea_same_form net d b : same_form d (data_after (saveLinea net d b)).
Proof.
  rewrite saveLinea_run. cbn zeta.
  destruct (net (requests b)) as [|res]; [apply same_form_refl|].
  destruct (res_ok res); [|apply same_form_refl].
  pose proof (fetchCatalogs_same_form net d
    (sent (linea_request (localStorage b !! "token") d) b)) as Hsame.
  destruct (fetchCatalogs net d _) as [[[] d1] b1]; exact Hsame.
Qed.

Lemma saveSegmento_same_form net d b : same_form d (data_after (saveSegmento net d b)).
Proof.
  rewrite saveSegmento_run. cbn zeta.
  destruct (net (requests b)) as [|res]; [apply same_form_refl|].
  destruct (res_ok res); [|apply same_form_refl].
  pose proof (fetchCatalogs_same_form net d
    (sent (segmento_request (localStorage b !! "token") d) b)) as Hsame.
  destruct (fetchCatalogs net d _) as [[[] d1] b1]; exact Hsame.
Qed.

Lemma editProduct_isEditing producto net d b :
  isEditing (data_after (editProduct producto net d b)) = true.
Proof. rewrite editProduct_run. by destruct (get producto "id"). Qed.

Lemma dispatch_create_mode_code (a : action) (net : network) (d : data) (b : browser) :
  create_mode_code_is_text d ->
  create_mode_code_is_text (data_after (dispatch a net d b)).
Proof.
  intros Hd. destruct a; cbn [dispatch].
  all: try (by apply (create_mode_code_same_form d);
              [first [ apply mounted_same_form | apply changeIncludeInactive_same_form
                     | apply deactivateProduct_same_form | apply saveLinea_same_form
                     | apply saveSegmento_same_form | apply same_form_refl ] |]).
  all: try exact Hd.
  - intros _. by exists text.
  - apply create_mode_code_reset.
  - destruct (saveProduct_keeps_or_resets net d b) as [Hsame | [d2 ->]].
    + by apply (create_mode_code_same_form d).
    + apply create_mode_code_reset.
  - intros Hcreate. by rewrite editProduct_isEditing in Hcreate.
Qed.

Lemma reachable_create_mode_code (d : data) :
  reachable d -> create_mode_code_is_text d.
Proof.
  induction 1 as [|d a net b _ IH].
  - intros _. by exists "".
  - by apply dispatch_create_mode_code.
Qed.

Lemma sent_frame (r : request) (b : browser) :
  localStorage (sent r b) = localStorage b /\ route (sent r b) = route b /\
  requests (sent r b) = S (requests b) /\ trace (sent r b) = trace b ++ [EvFetch r].
Proof. by unfold sent. Qed.

(** C8. A mutating call answered with a response that is not ok is dropped in
    silence: saving a product, a line or a segment leaves the whole data of the view
    as it was, with no navigation and no write to storage; deactivating still refetches
    the collection, and leaves everything but the product list as it was. *)
Theorem mutation_failure_is_silent
    (net : network) (d : data) (b : browser) (res : response) :
  net (requests b) = NetResp res ->
  res_ok res = false ->
  let token := localStorage b !! "token" in
  saveProduct net d b = (Done tt, d, sent (save_request token d) b) /\
  saveLinea net d b = (Done tt, d, sent (linea_request token d) b) /\
  saveSegmento net d b = (Done tt, d, sent (segmento_request token d) b) /\
  forall producto id, get producto "id" = Done id ->
    let r := deactivateProduct producto net d b in
    set_products (products d) (data_after r) = d /\
    same_form d (data_after r) /\
    browser_after r =
      sent (products_request token (includeInactive d)) (sent (deactivate_request token id) b) /\
    localStorage (browser_after r) = localStorage b /\
    route (browser_after r) = route b.
Proof.
  intros Hnet Hok token. subst token.
  rewrite saveProduct_run, saveLinea_run, saveSegmento_run. cbn zeta.
  rewrite Hnet, Hok. do 3 (split; [reflexivity|]).
  intros producto id Hid.
  rewrite deactivateProduct_run, Hid. cbn zeta. rewrite Hnet.
  pose proof (fetchProducts_frame net d
    (sent (deactivate_request (localStorage b !! "token") id) b)) as [Hb Hd].
  split; [exact Hd|]. split; [apply fetchProducts_same_form|].
  rewrite Hb. by fields.
Qed.

(** C4 (amended). After a product call answered with a response that is ok, the
    collection is requested again.  For a create or an update the form then returns
    to create mode with every field at its default, provided the refetch is answered;
    for a deactivation the mode and the form are left as they were.  In both cases the
    list shown is the one the refetch returned. *)
Theorem successful_mutation_refetches
    (net : network) (d : data) (b : browser) (res : response) :
  net (requests b) = NetResp res ->
  res_ok res = true ->
  let token := localStorage b !! "token" in
  let refetch := products_request token (includeInactive d) in
  (let r := saveProduct net d b in
   browser_after r = sent refetch (sent (save_request token d) b) /\
   (answered net (S (requests b)) ->
      outcome_of r = Done tt /\
      isEditing (data_after r) = false /\
      editingId (data_after r) = JNull /\
      form (data_after r) = empty_form) /\
   (forall list, answered_with net (S (requests b)) list ->
      products (data_after r) = list)) /\
  (forall producto id, get producto "id" = Done id ->
     let r := deactivateProduct producto net d b in
     browser_after r = sent refetch (sent (deactivate_request token id) b) /\
     same_form d (data_after r) /\
     (forall list, answered_with net (S (requests b)) list ->
        products (data_after r) = list)).
Proof.
  intros Hnet Hok token refetch. subst token refetch. split.
  - rewrite saveProduct_run. cbn zeta. rewrite Hnet, Hok, fetchProducts_run.
    unfold answered, answered_with, outcome_of, data_after, browser_after. fields.
    destruct (net (S (requests b))) as [|res']; fields.
    { split; [reflexivity|]. split; [done|]. by intros list (? & [=] & _). }
    destruct (res_ok res') eqn:Hok'; fields.
    + destruct (res_body res') as [list'|] eqn:Hbody; fields.
      * split; [reflexivity|]. split; [done|].
        intros list (? & [= <-] & _ & Hlist). congruence.
      * split; [reflexivity|]. split.
        { intros Hsome. by destruct (Hsome eq_refl). }
        intros list (? & [= <-] & _ & Hlist). congruence.
    + split; [reflexivity|]. split; [done|].
      intros list (? & [= <-] & Hyes & _). congruence.
  - intros producto id Hid r. subst r.
    rewrite deactivateProduct_run, Hid. cbn zeta. rewrite Hnet.
    pose proof (fetchProducts_frame net d
      (sent (deactivate_request (localStorage b !! "token") id) b)) as [Hb _].
    split; [exact Hb|]. split; [apply fetchProducts_same_form|].
    intros list (res' & Hnet' & Hok' & Hbody).
    rewrite fetchProducts_run. fields. by rewrite Hnet', Hok', Hbody.
Qed.

(** The first thing [saveProduct] does is to send [save_request]. *)
Lemma saveProduct_sends (net : network) (d : data) (b : browser) :
  exists rest,
    trace (browser_after (saveProduct net d b)) =
      trace b ++ EvFetch (save_request (localStorage b !! "token") d) :: rest.
Proof.
  rewrite saveProduct_run. cbn zeta.
  destruct (net (requests b)) as [|res]; [by exists []|].
  destruct (res_ok res); [|by exists []].
  pose proof (fetchProducts_frame net d
    (sent (save_request (localStorage b !! "token") d) b)) as [Hb _].
  destruct (fetchProducts net d _) as [[[] d2] b2];
    unfold browser_after in *; cbn [fst snd] in *; rewrite Hb; fields;
    rewrite <- app_assoc; eauto.
Qed.

(** C6. What [saveProduct] sends, by mode.  In edit mode: a PUT to the endpoint of
    [editingId], which [editProduct] set to the identifier of the selected record, and
    a JSON payload without [cod_producto].  In create mode: a POST to the collection
    whose payload holds the code typed in the form. *)
Theorem save_request_by_mode (net : network) (d : data) (b : browser) :
  reachable d ->
  let request := save_request (localStorage b !! "token") d in
  (exists rest, trace (browser_after (saveProduct net d b)) = trace b ++ EvFetch request :: rest) /\
  (exists payload, req_body request = Some (JObj payload) /\
     (isEditing d = true ->
        req_method request = "PUT" /\
        req_url request = api +:+ "/products/" +:+ to_string (editingId d) /\
        payload !! "cod_producto" = None) /\
     (isEditing d = false ->
        req_method request = "POST" /\
        req_url request = api +:+ "/products" /\
        exists code, cod_producto (form d) = JStr code /\
                     payload !! "cod_producto" = Some (JStr code))) /\
  (forall producto id net' b', get producto "id" = Done id ->
     let d' := data_after (editProduct producto net' d b') in
     isEditing d' = true /\ editingId d' = id /\
     req_method (save_request (localStorage b !! "token") d') = "PUT" /\
     req_url (save_request (localStorage b !! "token") d') =
       api +:+ "/products/" +:+ to_string id).
Proof.
  intros Hreach request. subst request.
  split; [apply saveProduct_sends|]. split.
  - exists (omap json_of (payload_of d)). split; [apply save_request_body|].
    rewrite lookup_omap, payload_cod_producto. unfold save_request. cbn [req_method req_url].
    split; intros Hmode; rewrite Hmode; (split; [reflexivity|]); (split; [reflexivity|]).
    { reflexivity. }
    destruct (reachable_create_mode_code d Hreach Hmode) as [code Hcode].
    exists code. by rewrite Hcode.
  - intros producto id net' b' Hid d'. subst d'.
    rewrite editProduct_run, Hid. unfold data_after, save_request. by fields.
Qed.

(** C10. In the payload of every [saveProduct] an empty line or segment selection is
    sent as [null]; neither is ever sent as the empty string. *)
Theorem save_payload_nulls_empty_selection (net : network) (d : data) (b : browser) :
  let request := save_request (localStorage b !! "token") d in
  (exists rest, trace (browser_after (saveProduct net d b)) = trace b ++ EvFetch request :: rest) /\
  exists payload, req_body request = Some (JObj payload) /\
    (linea_id (form d) = JStr "" -> payload !! "linea_id" = Some JNull) /\
    (segmento_id (form d) = JStr "" -> payload !! "segmento_id" = Some JNull) /\
    payload !! "linea_id" <> Some (JStr "") /\
    payload !! "segmento_id" <> Some (JStr "").
Proof.
  intros request. subst request. split; [apply saveProduct_sends|].
  exists (omap json_of (payload_of d)). split; [apply save_request_body|].
  rewrite !lookup_omap, payload_linea_id, payload_segmento_id.
  assert (Hnever : forall v, json_of (js_or v JNull) <> Some (JStr "")).
  { intros v. unfold js_or. destruct (truthy v) eqn:Hv; [|discriminate].
    destruct v as [| |?|n|s|?|?]; cbn in *; try discriminate.
    - by destruct (num_finite n).
    - destruct s; [discriminate|]. by intros [=]. }
  repeat split.
  - by intros ->.
  - by intros ->.
  - apply Hnever.
  - apply Hnever.
Qed.

(** C1, the Inventory view.  Activated with no token in storage, the view does not
    navigate: it requests the catalogs with the header [Authorization: Bearer null],
    and everything it does afterwards is a request too. *)
Theorem inventory_mounted_without_token (net : network) (d : data) (b : browser) :
  localStorage b !! "token" = None ->
  let r := mounted net d b in
  route (browser_after r) = route b /\
  req_headers (catalogs_request None) = [("Authorization", "Bearer null")] /\
  exists rest,
    trace (browser_after r) = trace b ++ EvFetch (catalogs_request None) :: rest /\
    Forall (fun e => is_fetch e = true) rest.
Proof.
  intros Hnone r. subst r. rewrite mounted_run, fetchCatalogs_run. cbn zeta.
  rewrite Hnone. set (b1 := sent (catalogs_request None) b).
  assert (Hstop : forall (o : outcome unit) (d1 : data),
    route (browser_after (o, d1, b1)) = route b /\
    req_headers (catalogs_request None) = [("Authorization", "Bearer null")] /\
    exists rest,
      trace (browser_after (o, d1, b1)) = trace b ++ EvFetch (catalogs_request None) :: rest /\
      Forall (fun e => is_fetch e = true) rest).
  { intros o d1. repeat split. by exists []. }
  assert (Hgo : forall d1 : data,
    route (browser_after (fetchProducts net d1 b1)) = route b /\
    req_headers (catalogs_request None) = [("Authorization", "Bearer null")] /\
    exists rest,
      trace (browser_after (fetchProducts net d1 b1)) =
        trace b ++ EvFetch (catalogs_request None) :: rest /\
      Forall (fun e => is_fetch e = true) rest).
  { intros d1. destruct (fetchProducts_frame net d1 b1) as [-> _].
    repeat split. eexists. split.
    - subst b1. fields. by rewrite <- app_assoc.
    - by repeat constructor. }
  destruct (net (requests b)) as [|res]; [apply Hstop|].
  destruct (res_ok res); [|apply Hgo].
  destruct (res_body res) as [data|]; [|apply Hstop].
  destruct (get data "lineas"); [|apply Hstop].
  destruct (get data "segmentos"); [apply Hgo|apply Hstop].
Qed.

(** *** What the view does to the browser, and where its list comes from *)

Lemma fetchCatalogs_frame (net : network) (d : data) (b : browser) :
  let r := fetchCatalogs net d b in
  browser_after r = sent (catalogs_request (localStorage b !! "token")) b /\
  products (data_after r) = products d.
Proof.
  intros r. subst r. rewrite fetchCatalogs_run. unfold browser_after, data_after.
  repeat match goal with |- context [match ?x with _ => _ end] => destruct x end; by fields.
Qed.

Lemma only_requests_refl b : only_requests b b.
Proof. repeat split. exists []. by rewrite app_nil_r. Qed.

Lemma only_requests_trans b1 b2 b3 :
  only_requests b1 b2 -> only_requests b2 b3 -> only_requests b1 b3.
Proof.
  intros (Hls & Hr & evs & Ht & Hevs) (Hls' & Hr' & evs' & Ht' & Hevs').
  split; [congruence|]. split; [congruence|].
  exists (evs ++ evs'). split; [by rewrite Ht', Ht, app_assoc|].
  apply Forall_app. split; [exact Hevs|]. by rewrite Hls in Hevs'.
Qed.

Lemma only_requests_sent (r : request) (b : browser) :
  In (bearer (localStorage b !! "token")) (req_headers r) -> only_requests b (sent r b).
Proof.
  intros Hin. repeat split. exists [EvFetch r]. split; [reflexivity|].
  by repeat constructor.
Qed.

Lemma fetchProducts_only_requests net d b :
  only_requests b (browser_after (fetchProducts net d b)).
Proof.
  destruct (fetchProducts_frame net d b) as [-> _].
  apply only_requests_sent. cbn. by left.
Qed.

Lemma fetchCatalogs_only_requests net d b :
  only_requests b (browser_after (fetchCatalogs net d b)).
Proof.
  destruct (fetchCatalogs_frame net d b) as [-> _].
  apply only_requests_sent. cbn. by left.
Qed.

Lemma run_then_only_requests {A} (m : M data A) (k : M data unit) net d b :
  only_requests b (browser_after (m net d b)) ->
  (forall d1 b1, only_requests b1 (browser_after (k net d1 b1))) ->
  only_requests b
    (browser_after (match m net d b with
                    | (Done _, d1, b1) => k net d1 b1
                    | (Thrown e, d1, b1) => (Thrown e, d1, b1)
                    end)).
Proof.
  intros Hm Hk. destruct (m net d b) as [[[] d1] b1]; [|exact Hm].
  eapply only_requests_trans; [exact Hm|apply Hk].
Qed.

(** Whatever the user does on the Inventory view, all it does to the browser is to send
    requests that carry the stored token as a bearer credential: it never navigates and
    never writes to local storage. *)
Theorem inventory_only_sends_authorized_requests
    (a : action) (net : network) (d : data) (b : browser) :
  only_requests b (browser_after (dispatch a net d b)).
Proof.
  destruct a; cbn [dispatch]; try apply only_requests_refl.
  - rewrite mounted_run.
    apply (run_then_only_requests fetchCatalogs fetchProducts);
      [apply fetchCatalogs_only_requests|intros; apply fetchProducts_only_requests].
  - unfold changeIncludeInactive. run.
    pose proof (fetchProducts_only_requests net (set_includeInactive checked d) b) as Hp.
    by destruct (fetchProducts net _ b) as [[[] ?] ?].
  - rewrite saveProduct_run. cbn zeta.
    assert (Hsent : only_requests b (sent (save_request (localStorage b !! "token") d) b))
      by (apply only_requests_sent; cbn; auto).
    destruct (net (requests b)) as [|res]; [exact Hsent|].
    destruct (res_ok res); [|exact Hsent].
    pose proof (fetchProducts_only_requests net d
                  (sent (save_request (localStorage b !! "token") d) b)) as Hp.
    destruct (fetchProducts net d _) as [[[] ?] ?];
      exact (only_requests_trans _ _ _ Hsent Hp).
  - rewrite editProduct_run. destruct (get producto "id"); apply only_requests_refl.
  - rewrite deactivateProduct_run. destruct (get producto "id") as [id|]; [|apply only_requests_refl].
    cbn zeta.
    assert (Hsent : only_requests b (sent (deactivate_request (localStorage b !! "token") id) b))
      by (apply only_requests_sent; cbn; auto).
    destruct (net (requests b)); [exact Hsent|].
    eapply only_requests_trans; [exact Hsent|apply fetchProducts_only_requests].
  - rewrite saveLinea_run. cbn zeta.
    assert (Hsent : only_requests b (sent (linea_request (localStorage b !! "token") d) b))
      by (apply only_requests_sent; cbn; auto).
    destruct (net (requests b)) as [|res]; [exact Hsent|].
    destruct (res_ok res); [|exact Hsent].
    pose proof (fetchCatalogs_only_requests net d
                  (sent (linea_request (localStorage b !! "token") d) b)) as Hp.
    destruct (fetchCatalogs net d _) as [[[] ?] ?];
      exact (only_requests_trans _ _ _ Hsent Hp).
  - rewrite saveSegmento_run. cbn zeta.
    assert (Hsent : only_requests b (sent (segmento_request (localStorage b !! "token") d) b))
      by (apply only_requests_sent; cbn; auto).
    destruct (net (requests b)) as [|res]; [exact Hsent|].
    destruct (res_ok res); [|exact Hsent].
    pose proof (fetchCatalogs_only_requests net d
                  (sent (segmento_request (localStorage b !! "token") d) b)) as Hp.
    destruct (fetchCatalogs net d _) as [[[] ?] ?];
      exact (only_requests_trans _ _ _ Hsent Hp).
Qed.

Lemma from_backend_refl net d : from_backend net d d.
Proof. by left. Qed.

Lemma from_backend_trans net d1 d2 d3 :
  from_backend net d1 d2 -> from_backend net d2 d3 -> from_backend net d1 d3.
Proof.
  intros [H12|H12] [H23|H23]; [left; congruence|by right|right|by right].
  by rewrite H23.
Qed.

Lemma from_backend_same_products net d d' :
  products d' = products d -> from_backend net d d'.
Proof. by left. Qed.

Lemma fetchProducts_from_backend net d b :
  from_backend net d (data_after (fetchProducts net d b)).
Proof.
  rewrite fetchProducts_run. cbn zeta. unfold data_after.
  destruct (net (requests b)) as [|res] eqn:Hnet; [by left|].
  destruct (res_ok res) eqn:Hok; [|by left].
  destruct (res_body res) as [list|] eqn:Hbody; [|by left].
  right. exists (requests b), res. by fields.
Qed.

Lemma fetchCatalogs_from_backend net d b :
  from_backend net d (data_after (fetchCatalogs net d b)).
Proof. left. by destruct (fetchCatalogs_frame net d b) as [_ ->]. Qed.

(** The list shown is never patched locally: after any handler it is the list it was,
    or the body of an ok response of the backend. *)
Theorem products_come_from_backend
    (a : action) (net : network) (d : data) (b : browser) :
  from_backend net d (data_after (dispatch a net d b)).
Proof.
  destruct a; cbn [dispatch]; try (by left).
  - rewrite mounted_run.
    pose proof (fetchCatalogs_from_backend net d b) as Hc.
    destruct (fetchCatalogs net d b) as [[[] d1] b1]; [|exact Hc].
    eapply from_backend_trans; [exact Hc|apply fetchProducts_from_backend].
  - unfold changeIncludeInactive. run.
    pose proof (fetchProducts_from_backend net (set_includeInactive checked d) b) as Hp.
    by destruct (fetchProducts net _ b) as [[[] ?] ?].
  - rewrite saveProduct_run. cbn zeta.
    destruct (net (requests b)) as [|res]; [by left|].
    destruct (res_ok res); [|by left].
    pose proof (fetchProducts_from_backend net d
                  (sent (save_request (localStorage b !! "token") d) b)) as Hp.
    by destruct (fetchProducts net d _) as [[[] ?] ?].
  - rewrite editProduct_run. by destruct (get producto "id"); left.
  - rewrite deactivateProduct_run. destruct (get producto "id") as [id|]; [|by left].
    cbn zeta. destruct (net (requests b)); [by left|].
    apply fetchProducts_from_backend.
  - left. rewrite saveLinea_run. cbn zeta.
    destruct (net (requests b)) as [|res]; [done|].
    destruct (res_ok res); [|done].
    pose proof (fetchCatalogs_frame net d
                  (sent (linea_request (localStorage b !! "token") d) b)) as [_ Hp].
    by destruct (fetchCatalogs net d _) as [[[] ?] ?].
  - left. rewrite saveSegmento_run. cbn zeta.
    destruct (net (requests b)) as [|res]; [done|].
    destruct (res_ok res); [|done].
    pose proof (fetchCatalogs_frame net d
                  (sent (segmento_request (localStorage b !! "token") d) b)) as [_ Hp].
    by destruct (fetchCatalogs net d _) as [[[] ?] ?].
Qed.

(** Selecting a record and then clearing the form touches neither the network nor the
    browser, and leaves the data as [resetForm] alone would. *)
Theorem edit_then_reset_is_local
    (net : network) (d : data) (b : browser) (producto : jsval) :
  let r1 := editProduct producto net d b in
  let r2 := resetForm net (data_after r1) (browser_after r1) in
  browser_after r2 = b /\ data_after r2 = reset d /\
  isEditing (data_after r2) = false /\ form (data_after r2) = empty_form.
Proof.
  intros r1 r2. subst r1 r2. rewrite resetForm_run, editProduct_run.
  by destruct (get producto "id").
Qed.

(** *** The search box *)

Lemma truthy_not_nullish (v : jsval) : truthy v = true -> nullish v = false.
Proof. by destruct v. Qed.

Lemma array_join_truthy (sep : string) (l : list jsval) :
  array_join sep (List.filter truthy l) = Str.join sep (map to_string (List.filter truthy l)).
Proof.
  unfold array_join. f_equal. induction l as [|x l IH]; [reflexivity|].
  cbn [List.filter]. destruct (truthy x) eqn:Hx; [|exact IH].
  cbn [map]. by rewrite (truthy_not_nullish x Hx), IH.
Qed.

Lemma search_text_total (producto : jsval) :
  nullish producto = false ->
  search_text producto = Done (toLowerCase (Str.join " " (searched producto))).
Proof.
  intros Hp. unfold searched, searched_values. rewrite <- array_join_truthy.
  by destruct producto.
Qed.

Lemma matches_total (query : string) (producto : jsval) :
  nullish producto = false ->
  matches query producto = Done (text_contains query producto).
Proof. intros Hp. unfold matches. by rewrite search_text_total. Qed.

Lemma filter_outcome_Done (f : jsval -> outcome bool) (g : jsval -> bool) (l : list jsval) :
  Forall (fun x => f x = Done (g x)) l ->
  filter_outcome f l = Done (List.filter g l).
Proof.
  induction 1 as [|x l Hx _ IH]; [reflexivity|].
  cbn [filter_outcome List.filter]. rewrite Hx, IH. reflexivity.
Qed.

Lemma filter_nothing (g : jsval -> bool) (l : list jsval) :
  (forall x, In x l -> g x = false) -> List.filter g l = [].
Proof.
  induction l as [|x l IH]; intros Hnone; [reflexivity|]. cbn [List.filter].
  rewrite (Hnone x) by (by left). apply IH. intros y Hy. apply Hnone. by right.
Qed.

Lemma some_field_contains_text (query : string) (producto : jsval) :
  some_field_contains query producto = true -> text_contains query producto = true.
Proof.
  unfold some_field_contains, text_contains. rewrite existsb_exists.
  intros (w & Hin & Hw). rewrite toLowerCase_join_space.
  apply (includes_join_elem " " (toLowerCase w)); [|exact Hw].
  by apply in_map.
Qed.

Lemma text_contains_some_field (query : string) (producto : jsval) :
  query <> "" -> Str.mentions " " query = false ->
  text_contains query producto = true -> some_field_contains query producto = true.
Proof.
  unfold some_field_contains, text_contains. intros Hne Hsp.
  rewrite toLowerCase_join_space. intros Hq.
  apply (includes_join_split " " query _ Hne Hsp) in Hq as (w & Hin & Hw).
  apply in_map_iff in Hin as (w0 & <- & Hin).
  apply existsb_exists. by exists w0.
Qed.

(** C7 (amended). The search box filters the fetched list without touching it or the
    network ([filteredProducts] is a function of the data).  The query is the search
    text, trimmed and lower-cased.  An empty search text, and one that [trim] empties,
    give the empty query, and the empty query gives the list back.  Any other query
    keeps exactly the products whose searched values (code, description, line name,
    segment name and brand, the truthy ones), joined by single spaces and lower-cased,
    contain the query: every product with a searched value that contains it is kept;
    when the query has no space in it these are the only ones kept; and when nothing
    matches the result is empty. *)
Theorem filteredProducts_by_joined_text (d : data) (ps : list jsval) :
  products d = JArr ps ->
  Forall (fun p => nullish p = false) ps ->
  let query := toLowerCase (trim (search d)) in
  (search d = "" -> query = "") /\
  (trim (search d) = "" -> query = "") /\
  (query = "" -> filteredProducts d = Done (JArr ps)) /\
  (query <> "" ->
     filteredProducts d = Done (JArr (List.filter (text_contains query) ps)) /\
     (forall p, some_field_contains query p = true -> text_contains query p = true) /\
     (Str.mentions " " query = false ->
        forall p, text_contains query p = some_field_contains query p) /\
     ((forall p, In p ps -> text_contains query p = false) ->
        filteredProducts d = Done (JArr []))).
Proof.
  intros Hps Hall query. unfold filteredProducts. fold query. rewrite Hps.
  split; [|split; [|split]].
  - intros Hempty. subst query. by rewrite Hempty, trim_empty, toLowerCase_empty.
  - intros Hempty. subst query. by rewrite Hempty, toLowerCase_empty.
  - intros Hempty. by rewrite Hempty.
  - intros Hne. apply nonempty_true in Hne as Hsome.
    rewrite Hsome. cbn [negb array_filter].
    rewrite (filter_outcome_Done _ (text_contains query)); cycle 1.
    { eapply Forall_impl; [exact Hall|]. intros p Hp. by apply matches_total. }
    cbn [outcome_bind]. split; [reflexivity|].
    split; [apply some_field_contains_text|]. split.
    + intros Hsp p.
      destruct (text_contains query p) eqn:Ht.
      * symmetry. by apply text_contains_some_field.
      * destruct (some_field_contains query p) eqn:Hs; [|reflexivity].
        apply some_field_contains_text in Hs. congruence.
    + intros Hnone. by rewrite (filter_nothing _ _ Hnone).
Qed.

End InventoryFacts.

(** ** One text inside another *)

Section InclusionFacts.
Import Str.

Lemma prefix_split (q s : string) :
  String.prefix q s = true <-> exists b, s = q +:+ b.
Proof.
  revert s. induction q as [|c q IH]; intros s.
  - rewrite prefix_empty. split; [|done]. intros _. by exists s.
  - destruct s as [|x s].
    + split; [discriminate|]. by intros [b Hb].
    + rewrite prefix_cons, andb_true_iff, bool_decide_eq_true, IH. split.
      * intros [-> [b ->]]. by exists b.
      * intros [b Hb]. change (String c q +:+ b) with (String c (q +:+ b)) in Hb.
        injection Hb as -> ->. split; [reflexivity|]. by exists b.
Qed.

Lemma includes_split (s q : string) :
  includes s q = true <-> exists a b, s = a +:+ q +:+ b.
Proof.
  induction s as [|x s IH]; cbn [includes].
  - rewrite orb_false_r. split.
    + intros Hq. apply prefix_of_empty in Hq as ->. by exists "", "".
    + intros (a & b & Hs). destruct a; [|discriminate].
      destruct q; [reflexivity|discriminate].
  - rewrite orb_true_iff, prefix_split, IH. split.
    + intros [[b Hb]|(a & b & ->)].
      * by exists "", b.
      * by exists (String x a), b.
    + intros (a & b & Hs). destruct a as [|y a].
      * left. by exists b.
      * right. change (String y a +:+ q +:+ b) with (String y (a +:+ q +:+ b)) in Hs.
        injection Hs as -> ->. by exists a, b.
Qed.

Lemma string_app_assoc (a b c : string) : (a +:+ b) +:+ c = a +:+ (b +:+ c).
Proof.
  induction a as [|x a IH]; [reflexivity|].
  change (String x ((a +:+ b) +:+ c) = String x (a +:+ (b +:+ c))). by rewrite IH.
Qed.

Lemma includes_trans (s q q' : string) :
  includes s q = true -> includes q q' = true -> includes s q' = true.
Proof.
  rewrite !includes_split. intros (a & b & ->) (a' & b' & ->).
  exists (a +:+ a'), (b' +:+ b). by rewrite !string_app_assoc.
Qed.

Lemma includes_of_empty (q : string) : includes "" q = true -> q = "".
Proof. cbn. rewrite orb_false_r. apply prefix_of_empty. Qed.

End InclusionFacts.

(** ** The Inventory view: catalogs, failures and the search box *)

Section InventoryCoverage.
Context `{JsNumber} `{JsText}.
Import Inventory.

#[local] Ltac fields :=
  cbn [products lineas segmentos includeInactive isEditing editingId search
       showLineaForm showSegmentoForm lineaForm segmentoForm form
       set_products set_lineas set_segmentos set_includeInactive set_isEditing
       set_editingId set_search set_showLineaForm set_showSegmentoForm
       set_lineaForm set_segmentoForm set_form reset
       localStorage route requests trace sent fst snd].

(** Splits on what the code branches on, innermost first. *)
#[local] Ltac cases :=
  repeat first
    [ rewrite fetchProducts_run
    | rewrite fetchCatalogs_run
    | match goal with
      | |- context [match ?x with _ => _ end] =>
          lazymatch x with
          | context [match _ with _ => _ end] => fail
          | _ => destruct x eqn:?
          end
      end ].

(** *** An invariant of the data *)

Lemma truthy_js_or_array (v : jsval) (l : list jsval) : truthy (js_or v (JArr l)) = true.
Proof. unfold js_or. by destruct (truthy v) eqn:Hv. Qed.

Lemma dispatch_well_formed (a : action) (net : network) (d : data) (b : browser) :
  well_formed d -> well_formed (data_after (dispatch a net d b)).
Proof.
  intros (Hid & Hl & Hs). unfold well_formed.
  destruct a; cbn [dispatch];
    rewrite ?mounted_run, ?saveProduct_run, ?saveLinea_run, ?saveSegmento_run,
            ?deactivateProduct_run, ?editProduct_run;
    unfold changeIncludeInactive, resetForm, resetLineaForm, resetSegmentoForm,
           toggleLineaForm, toggleSegmentoForm, edit_form, edit_lineaForm;
    run; cbn zeta; cases; unfold data_after; fields;
    rewrite ?truthy_js_or_array; repeat split; done.
Qed.

(** Whatever the user does and however the backend answers, the view never keeps an
    identifier outside of edit mode, and neither catalog ever holds [null],
    [undefined] or another falsy value: a response without the property leaves an
    empty list. *)
Theorem reachable_well_formed (d : data) : reachable d -> well_formed d.
Proof.
  induction 1 as [|d a net b _ IH].
  - by repeat split.
  - by apply dispatch_well_formed.
Qed.

(** *** Creating a line or a segment *)

Lemma linea_request_body (token : option string) (d : data) :
  req_body (linea_request token d) =
    Some (JObj (<["cod_linea" := JStr (lf_cod_linea (lineaForm d))]>
               (<["linea" := JStr (lf_linea (lineaForm d))]>
               (<["activo" := JBool (lf_activo (lineaForm d))]> ∅)))).
Proof.
  unfold linea_request, linea_payload, JSON_stringify.
  cbn [req_body json_of list_to_map foldr uncurry fst snd].
  rewrite (omap_insert_Some _ _ _ _ (JStr (lf_cod_linea (lineaForm d)))) by reflexivity.
  rewrite (omap_insert_Some _ _ _ _ (JStr (lf_linea (lineaForm d)))) by reflexivity.
  rewrite (omap_insert_Some _ _ _ _ (JBool (lf_activo (lineaForm d)))) by reflexivity.
  by rewrite omap_empty.
Qed.

Lemma segmento_request_body (token : option string) (d : data) :
  req_body (segmento_request token d) =
    Some (JObj (<["segmento" := JStr (sf_segmento (segmentoForm d))]> ∅)).
Proof.
  unfold segmento_request, segmento_payload, JSON_stringify.
  cbn [req_body json_of list_to_map foldr uncurry fst snd].
  rewrite (omap_insert_Some _ _ _ _ (JStr (sf_segmento (segmentoForm d)))) by reflexivity.
  by rewrite omap_empty.
Qed.

Lemma get_of_object (v : jsval) (k : string) :
  nullish v = false -> get v k = Done (get_opt v k).
Proof. unfold get_opt. by destruct v. Qed.

Lemma fetchCatalogs_answered (net : network) (d : data) (b : browser) :
  catalogs_answered net (requests b) ->
  exists d', fetchCatalogs net d b =
               (Done tt, d', sent (catalogs_request (localStorage b !! "token")) b) /\
    (forall res data, net (requests b) = NetResp res -> res_ok res = true ->
       res_body res = Some data -> d' = with_catalogs data d).
Proof.
  unfold catalogs_answered. rewrite fetchCatalogs_run. cbn zeta.
  destruct (net (requests b)) as [|res]; [done|].
  destruct (res_ok res) eqn:Hok.
  - intros Hsome. destruct (Hsome eq_refl) as (data & Hbody & Hdata).
    rewrite Hbody, !(get_of_object _ _ Hdata).
    exists (with_catalogs data d). split; [reflexivity|].
    intros ? ? [= <-] _ Hbody'. rewrite Hbody in Hbody'. by injection Hbody' as <-.
  - intros _. exists d. split; [reflexivity|].
    intros ? ? [= <-] Hyes. congruence.
Qed.

(** A line or a segment that the backend accepts: the form is posted as JSON, the
    catalogs are asked for again, and neither the product form nor the product list
    is touched by it.  When the refetch is answered the small form is emptied, the
    other small form is kept, and the two lists are those of the answer, or empty
    where the answer has none. *)
Theorem catalog_creation_refetches
    (net : network) (d : data) (b : browser) (res : response) :
  net (requests b) = NetResp res ->
  res_ok res = true ->
  let token := localStorage b !! "token" in
  (let r := saveLinea net d b in
   browser_after r = sent (catalogs_request token) (sent (linea_request token d) b) /\
   req_body (linea_request token d) =
     Some (JObj (<["cod_linea" := JStr (lf_cod_linea (lineaForm d))]>
                (<["linea" := JStr (lf_linea (lineaForm d))]>
                (<["activo" := JBool (lf_activo (lineaForm d))]> ∅)))) /\
   same_form d (data_after r) /\ products (data_after r) = products d /\
   segmentoForm (data_after r) = segmentoForm d /\
   (catalogs_answered net (S (requests b)) ->
      outcome_of r = Done tt /\ lineaForm (data_after r) = empty_lineaForm /\
      forall res' data, net (S (requests b)) = NetResp res' -> res_ok res' = true ->
        res_body res' = Some data ->
        lineas (data_after r) = js_or (get_opt data "lineas") (JArr []) /\
        segmentos (data_after r) = js_or (get_opt data "segmentos") (JArr []))) /\
  (let r := saveSegmento net d b in
   browser_after r = sent (catalogs_request token) (sent (segmento_request token d) b) /\
   req_body (segmento_request token d) =
     Some (JObj (<["segmento" := JStr (sf_segmento (segmentoForm d))]> ∅)) /\
   same_form d (data_after r) /\ products (data_after r) = products d /\
   lineaForm (data_after r) = lineaForm d /\
   (catalogs_answered net (S (requests b)) ->
      outcome_of r = Done tt /\ segmentoForm (data_after r) = empty_segmentoForm /\
      forall res' data, net (S (requests b)) = NetResp res' -> res_ok res' = true ->
        res_body res' = Some data ->
        lineas (data_after r) = js_or (get_opt data "lineas") (JArr []) /\
        segmentos (data_after r) = js_or (get_opt data "segmentos") (JArr []))).
Proof.
  intros Hnet Hok token. subst token. split.
  - rewrite saveLinea_run. cbn zeta. rewrite Hnet, Hok.
    set (b1 := sent (linea_request (localStorage b !! "token") d) b).
    pose proof (fetchCatalogs_frame net d b1) as [Hb Hp].
    pose proof (fetchCatalogs_same_form net d b1) as Hsame.
    split; [by destruct (fetchCatalogs net d b1) as [[[] ?] ?]|].
    split; [apply linea_request_body|].
    split; [by destruct (fetchCatalogs net d b1) as [[[] ?] ?]|].
    split; [by destruct (fetchCatalogs net d b1) as [[[] ?] ?]|].
    split.
    { rewrite fetchCatalogs_run. cbn zeta. unfold data_after. by cases; fields. }
    intros Hans. destruct (fetchCatalogs_answered net d b1 Hans) as (d' & -> & Hyes).
    unfold outcome_of, data_after. fields. do 2 (split; [reflexivity|]).
    intros res' data Hnet' Hok' Hbody. by rewrite (Hyes res' data Hnet' Hok' Hbody).
  - rewrite saveSegmento_run. cbn zeta. rewrite Hnet, Hok.
    set (b1 := sent (segmento_request (localStorage b !! "token") d) b).
    pose proof (fetchCatalogs_frame net d b1) as [Hb Hp].
    pose proof (fetchCatalogs_same_form net d b1) as Hsame.
    split; [by destruct (fetchCatalogs net d b1) as [[[] ?] ?]|].
    split; [apply segmento_request_body|].
    split; [by destruct (fetchCatalogs net d b1) as [[[] ?] ?]|].
    split; [by destruct (fetchCatalogs net d b1) as [[[] ?] ?]|].
    split.
    { rewrite fetchCatalogs_run. cbn zeta. unfold data_after. by cases; fields. }
    intros Hans. destruct (fetchCatalogs_answered net d b1 Hans) as (d' & -> & Hyes).
    unfold outcome_of, data_after. fields. do 2 (split; [reflexivity|]).
    intros res' data Hnet' Hok' Hbody. by rewrite (Hyes res' data Hnet' Hok' Hbody).
Qed.

(** *** A request that never gets a response *)

(** No method of the Inventory view catches anything: when a request gets no response
    the method ends in the exception of [fetch], the data is left exactly as it was,
    and nothing further is sent.  [mounted] then never asks for the products, and a
    deactivation is not followed by a refetch. *)
Theorem inventory_network_failure_is_uncaught
    (net : network) (d : data) (b : browser) :
  net (requests b) = NetFail ->
  let token := localStorage b !! "token" in
  fetchCatalogs net d b = (Thrown NetworkError, d, sent (catalogs_request token) b) /\
  fetchProducts net d b =
    (Thrown NetworkError, d, sent (products_request token (includeInactive d)) b) /\
  mounted net d b = (Thrown NetworkError, d, sent (catalogs_request token) b) /\
  saveProduct net d b = (Thrown NetworkError, d, sent (save_request token d) b) /\
  saveLinea net d b = (Thrown NetworkError, d, sent (linea_request token d) b) /\
  saveSegmento net d b = (Thrown NetworkError, d, sent (segmento_request token d) b) /\
  forall producto id, get producto "id" = Done id ->
    deactivateProduct producto net d b =
      (Thrown NetworkError, d, sent (deactivate_request token id) b).
Proof.
  intros Hnet token. subst token.
  rewrite mounted_run, saveProduct_run, saveLinea_run, saveSegmento_run,
          fetchCatalogs_run, fetchProducts_run.
  cbn zeta. rewrite Hnet. do 6 (split; [reflexivity|]).
  intros producto id Hid. rewrite deactivateProduct_run, Hid. cbn zeta. by rewrite Hnet.
Qed.

(** *** More on the search box *)

Lemma filter_outcome_unreadable (query : string) (l : list jsval) :
  Exists (fun p => nullish p = true) l ->
  filter_outcome (matches query) l = Thrown TypeError.
Proof.
  induction l as [|x l IH]; intros Hex; [by apply Exists_nil in Hex|].
  cbn [filter_outcome]. destruct (nullish x) eqn:Hx.
  - by destruct x.
  - rewrite (matches_total query x Hx). cbn [outcome_bind].
    rewrite IH; [reflexivity|].
    apply Exists_cons in Hex as [Hex|Hex]; [congruence|exact Hex].
Qed.

Lemma filter_sublist (g : jsval -> bool) (l : list jsval) : sublist (List.filter g l) l.
Proof.
  induction l as [|x l IH]; [constructor|]. cbn [List.filter].
  destruct (g x); by constructor.
Qed.

Lemma filter_sublist_filter (g g' : jsval -> bool) (l : list jsval) :
  (forall x, g x = true -> g' x = true) ->
  sublist (List.filter g l) (List.filter g' l).
Proof.
  intros Hgg'. induction l as [|x l IH]; [constructor|]. cbn [List.filter].
  destruct (g x) eqn:Hg.
  - rewrite (Hgg' x Hg). by constructor.
  - destruct (g' x); [by constructor|exact IH].
Qed.

Lemma filteredProducts_readable (d : data) (ps : list jsval) :
  products d = JArr ps ->
  Forall (fun p => nullish p = false) ps ->
  let query := toLowerCase (trim (search d)) in
  filteredProducts d =
    Done (JArr (if Str.nonempty query then List.filter (text_contains query) ps else ps)).
Proof.
  intros Hps Hall query. unfold filteredProducts. fold query. rewrite Hps.
  destruct (Str.nonempty query); [|reflexivity]. cbn [negb array_filter].
  rewrite (filter_outcome_Done _ (text_contains query)); [reflexivity|].
  eapply Forall_impl; [exact Hall|]. intros p Hp. by apply matches_total.
Qed.

(** The query is the search text, trimmed and lower-cased.  With an empty query the
    stored value is handed back whatever it is, without a look at it.  Any other query
    reads every entry: it ends in a [TypeError] when the stored value is not an array,
    which [fetchProducts] does not check, or when one of its entries is [null] or
    [undefined]. *)
Theorem search_needs_readable_products (d : data) :
  let query := toLowerCase (trim (search d)) in
  (query = "" -> filteredProducts d = Done (products d)) /\
  (query <> "" ->
     (forall ps, products d = JArr ps ->
        Exists (fun p => nullish p = true) ps ->
        filteredProducts d = Thrown TypeError) /\
     ((forall ps, products d <> JArr ps) -> filteredProducts d = Thrown TypeError)).
Proof.
  intros query. unfold filteredProducts. fold query. split.
  - intros Hempty. by rewrite Hempty.
  - intros Hne. apply nonempty_true in Hne. rewrite Hne. cbn [negb]. split.
    + intros ps -> Hex. cbn [array_filter]. by rewrite filter_outcome_unreadable.
    + intros Hno. destruct (products d) as [| | | | |ps|]; try reflexivity.
      by destruct (Hno ps).
Qed.

(** Typing on narrows the result: when the trimmed, lower-cased text of one search
    contains that of another, over the same list, what it keeps is kept by the other
    too, in the same order; and what a search keeps is always part of the list, in
    the order of the list. *)
Theorem search_refinement (d d' : data) (ps : list jsval) :
  products d = JArr ps -> products d' = JArr ps ->
  Forall (fun p => nullish p = false) ps ->
  Str.includes (toLowerCase (trim (search d')))
               (toLowerCase (trim (search d))) = true ->
  exists l l', filteredProducts d = Done (JArr l) /\
               filteredProducts d' = Done (JArr l') /\
               sublist l' l /\ sublist l ps.
Proof.
  intros Hps Hps' Hall Hinc.
  rewrite (filteredProducts_readable d ps Hps Hall),
          (filteredProducts_readable d' ps Hps' Hall). cbn zeta.
  set (q := toLowerCase (trim (search d))) in *.
  set (q' := toLowerCase (trim (search d'))) in *.
  eexists _, _. split; [reflexivity|]. split; [reflexivity|].
  destruct (Str.nonempty q) eqn:Hq.
  - destruct (Str.nonempty q') eqn:Hq'.
    + split; [|apply filter_sublist]. apply filter_sublist_filter.
      intros p. unfold text_contains. intros Hp. by apply (includes_trans _ q').
    + destruct q'; [|discriminate]. apply includes_of_empty in Hinc.
      rewrite Hinc in Hq. discriminate.
  - split; [|reflexivity]. destruct (Str.nonempty q'); [apply filter_sublist|reflexivity].
Qed.

End InventoryCoverage.

(** ** The phrases of the login view *)

Section TimerFacts.
Context `{JsNumber}.
Import Login.

Lemma ticks_run (n : nat) (net : network) (d : data) (b : browser) :
  phraseIndex d < List.length phrases ->
  ticks n net d b =
    (Done tt, set_phraseIndex ((phraseIndex d + n) mod List.length phrases) d, b).
Proof.
  revert d. induction n as [|n IH]; intros d Hd.
  - cbn [ticks]. unfold ret. rewrite Nat.add_0_r, Nat.mod_small by exact Hd. by destruct d.
  - cbn [ticks]. unfold bind, tick, assign. rewrite IH.
    + cbn [phraseIndex set_phraseIndex]. unfold set_phraseIndex.
      cbn [email password remember error phraseIndex]. do 3 f_equal.
      rewrite Nat.Div0.add_mod_idemp_l. f_equal. lia.
    + cbn [phraseIndex set_phraseIndex]. apply Nat.mod_upper_bound. discriminate.
Qed.

(** The timer walks through the phrases in order and starts over after the last: after
    [n] firings the index has advanced by [n] modulo the number of phrases, a phrase
    is always shown, a full round shows the same phrase again, and every phrase of the
    list is shown within one round.  The browser is never touched. *)
Theorem phrases_rotate (n : nat) (net : network) (d : data) (b : browser) :
  phraseIndex d < List.length phrases ->
  let r := ticks n net d b in
  outcome_of r = Done tt /\ browser_after r = b /\
  phraseIndex (data_after r) = (phraseIndex d + n) mod List.length phrases /\
  is_Some (currentPhrase (data_after r)) /\
  (n mod List.length phrases = 0 -> currentPhrase (data_after r) = currentPhrase d) /\
  (forall s, In s phrases ->
     exists k, k < List.length phrases /\
       currentPhrase (data_after (ticks k net d b)) = Some s).
Proof.
  intros Hd r. subst r. rewrite ticks_run by exact Hd.
  unfold outcome_of, browser_after, data_after, currentPhrase.
  cbn [fst snd phraseIndex set_phraseIndex].
  do 3 (split; [reflexivity|]). split; [|split].
  - apply lookup_lt_is_Some. apply Nat.mod_upper_bound. discriminate.
  - intros Hn. f_equal. rewrite <- Nat.Div0.add_mod_idemp_r, Hn, Nat.add_0_r.
    by apply Nat.mod_small.
  - intros s Hs. apply list_elem_of_In, list_elem_of_lookup in Hs as [i Hi].
    assert (Hi25 : i < List.length phrases) by (by apply lookup_lt_is_Some).
    set (len := List.length phrases) in *.
    exists ((i + len - phraseIndex d) mod len). split.
    + apply Nat.mod_upper_bound. discriminate.
    + rewrite ticks_run by exact Hd. cbn [fst snd phraseIndex set_phraseIndex].
      fold len. rewrite Nat.Div0.add_mod_idemp_r.
      replace (phraseIndex d + (i + len - phraseIndex d)) with (i + 1 * len) by lia.
      rewrite Nat.Div0.mod_add. by rewrite Nat.mod_small.
Qed.

End TimerFacts.

(** ** A session across the views *)

Section SessionFacts.
Context `{JsNumber}.
Import Home.

#[local] Ltac fields :=
  cbn [displayName role branches activeBranch accessError
       set_displayName set_role set_branches set_activeBranch set_accessError
       localStorage route requests trace sent fst snd].

Lemma map_outcome_length {A B} (f : A -> outcome B) (l : list A) (l' : list B) :
  map_outcome f l = Done l' -> List.length l' = List.length l.
Proof.
  revert l'. induction l as [|x l IH]; intros l'; cbn [map_outcome].
  - by intros [= <-].
  - destruct (f x) as [y|]; [|discriminate]. cbn [outcome_bind].
    destruct (map_outcome f l) as [ys|]; [|discriminate]. cbn [outcome_bind].
    intros [= <-]. cbn. by rewrite (IH ys).
Qed.

Lemma map_outcome_Forall {A B} (P : B -> Prop) (f : A -> outcome B) (l : list A) (l' : list B) :
  (forall x y, f x = Done y -> P y) ->
  map_outcome f l = Done l' -> Forall P l'.
Proof.
  intros Hf. revert l'. induction l as [|x l IH]; intros l'; cbn [map_outcome].
  - intros [= <-]. constructor.
  - destruct (f x) as [y|] eqn:Hy; [|discriminate]. cbn [outcome_bind].
    destruct (map_outcome f l) as [ys|]; [|discriminate]. cbn [outcome_bind].
    intros [= <-]. constructor; [by eapply Hf|by apply IH].
Qed.

Lemma branch_of_is_branch (x y : jsval) : branch_of x = Done y -> is_branch y.
Proof.
  unfold branch_of. destruct (get x "code") as [c|]; [|discriminate].
  destruct (get x "name") as [n|]; [|discriminate]. cbn [outcome_bind].
  intros [= <-]. by exists c, n.
Qed.

Lemma branches_of_nonempty (profile : jsval) (bs : list jsval) :
  branches_of profile = Done bs -> bs <> [] /\ Forall is_branch bs.
Proof.
  unfold branches_of. destruct (get profile "branches") as [v|]; [|discriminate].
  cbn [outcome_bind].
  destruct (truthy v) eqn:Hv; cbn [outcome_bind].
  - destruct (get v "length") as [len|] eqn:Hlen; [|discriminate]. cbn [outcome_bind].
    destruct (truthy len) eqn:Htruthy.
    + destruct v as [| | | | |l|]; try discriminate. cbn [array_map]. intros Hmap.
      split; [|by eapply map_outcome_Forall; [apply branch_of_is_branch|]].
      apply map_outcome_length in Hmap. intros ->. cbn in Hmap.
      cbn [get] in Hlen. rewrite bool_decide_eq_true_2 in Hlen by reflexivity.
      injection Hlen as <-. cbn [truthy] in Htruthy.
      rewrite num_truthy_of_nat, <- Hmap in Htruthy. discriminate.
    + intros [= <-]. split; [discriminate|]. repeat constructor. by exists (JStr "central"), (JStr "Central").
  - rewrite Hv. intros [= <-]. split; [discriminate|]. repeat constructor.
    by exists (JStr "central"), (JStr "Central").
Qed.

Lemma home_mounted_with_token (net : network) (d : data) (b : browser) (t : string) :
  localStorage b !! "token" = Some t -> t <> "" ->
  let b2 := {| localStorage := delete "token" (localStorage b); route := "/login";
               requests := S (requests b);
               trace := trace b ++ [EvFetch (me_request ("Bearer " +:+ t));
                                    EvRemoveItem "token"; EvPush "/login"] |} in
  (exists profile, profile_answer net b profile) \/
  mounted net d b = (Done tt, set_accessError (Some "Sesion invalida") d, b2).
Proof.
  intros Htok Hne. cbn zeta.
  destruct (net (requests b)) as [|res] eqn:Hnet.
  - right. unfold mounted, load_profile, logout. run. rewrite Htok.
    apply truthy_JStr in Hne. cbn [of_nullable]. rewrite Hne. run. rewrite Hnet. run.
    cbn [to_string]. by rewrite <- !app_assoc.
  - destruct (res_ok res) eqn:Hok.
    + destruct (res_body res) as [profile|] eqn:Hbody.
      * left. exists profile, res. by repeat split.
      * right. unfold mounted, load_profile, logout. run. rewrite Htok.
        apply truthy_JStr in Hne. cbn [of_nullable]. rewrite Hne. run.
        rewrite Hnet, Hok, Hbody. run. cbn [to_string]. by rewrite <- !app_assoc.
    + right. unfold mounted, load_profile, logout. run. rewrite Htok.
      apply truthy_JStr in Hne. cbn [of_nullable]. rewrite Hne. run.
      rewrite Hnet, Hok. run. cbn [to_string]. by rewrite <- !app_assoc.
Qed.

Lemma home_closed_logged_out (b : browser) (t : string) :
  home_closed b
    {| localStorage := delete "token" (localStorage b); route := "/login";
       requests := S (requests b);
       trace := trace b ++ [EvFetch (me_request ("Bearer " +:+ t));
                            EvRemoveItem "token"; EvPush "/login"] |}.
Proof.
  split; [reflexivity|]. split.
  - intros k Hk. cbn. by rewrite lookup_delete_ne.
  - exists [EvFetch (me_request ("Bearer " +:+ t)); EvRemoveItem "token"].
    split; [reflexivity|]. right. eexists. split; [reflexivity|]. cbn. apply lookup_delete_eq.
Qed.

(** However the backend behaves and whatever the storage holds, [Home.mounted] completes
    without an exception and ends in one of two ways: the view is left for the login
    route, or it stays open for an administrator, with the token kept, a branch list
    that is not empty and its first branch active. *)
Theorem home_mounted_ends (net : network) (d : data) (b : browser) :
  let r := mounted net d b in
  outcome_of r = Done tt /\
  (home_closed b (browser_after r) \/ home_open b (data_after r) (browser_after r)).
Proof.
  intros r. subst r.
  destruct (truthy (of_nullable (localStorage b !! "token"))) eqn:Htruthy.
  - destruct (localStorage b !! "token") as [t|] eqn:Htok; [|discriminate].
    cbn [of_nullable] in Htruthy. apply truthy_JStr in Htruthy.
    destruct (home_mounted_with_token net d b t Htok Htruthy) as [[profile Hans] | ->].
    2:{ split; [reflexivity|]. left. apply home_closed_logged_out. }
    rewrite (home_mounted_profile net d b t profile Htok Htruthy Hans).
    destruct (display_name_of profile) as [name|];
      [|split; [reflexivity|]; left; apply home_closed_logged_out].
    destruct (role_names profile) as [roleNames|];
      [|split; [reflexivity|]; left; apply home_closed_logged_out].
    destruct (branches_of profile) as [mapped|] eqn:Hbranches;
      [|split; [reflexivity|]; left; apply home_closed_logged_out].
    destruct (strict_eq_str (index roleNames 0) "administrador") eqn:Hadmin;
      [|split; [reflexivity|]; left; apply home_closed_logged_out].
    split; [reflexivity|]. right. exists t.
    apply strict_eq_str_true in Hadmin.
    apply branches_of_nonempty in Hbranches as [Hne Hall].
    unfold data_after, browser_after, roleLabel, canChooseBranch. fields.
    rewrite Hadmin. cbn [js_or truthy Str.nonempty].
    do 7 (split; [done|]). split; [done|]. split; [reflexivity|].
    destruct mapped as [|x mapped]; [done|]. by inversion Hall.
  - split.
    + unfold mounted. run. by rewrite Htruthy.
    + left. unfold mounted. run. rewrite Htruthy. cbn [negb]. unfold browser_after. cbn [snd].
      split; [reflexivity|]. split; [done|]. exists []. split; [reflexivity|]. by left.
Qed.

Lemma home_mounted_first_effect (net : network) (d : data) (b : browser) (t : string) :
  localStorage b !! "token" = Some t -> t <> "" ->
  exists rest, trace (browser_after (mounted net d b)) =
    trace b ++ EvFetch (me_request ("Bearer " +:+ t)) :: rest.
Proof.
  intros Htok Hne.
  destruct (home_mounted_with_token net d b t Htok Hne) as [[profile Hans] | ->];
    [|by eexists].
  rewrite (home_mounted_profile net d b t profile Htok Hne Hans).
  unfold browser_after.
  repeat match goal with
         | |- context [match ?x with _ => _ end] => destruct x
         end; cbn [snd trace sent]; eauto.
Qed.

(** A submission of the login form never throws and never ends without feedback: it
    shows one of the two error messages, or it stores a token and goes to "/home".  The
    typed credentials and the check box are left as they were. *)
Theorem login_ends (net : network) (d : Login.data) (b : browser) :
  let r := Login.login net d b in
  outcome_of r = Done tt /\
  Login.email (data_after r) = Login.email d /\
  Login.password (data_after r) = Login.password d /\
  Login.remember (data_after r) = Login.remember d /\
  (login_failed d b (data_after r) (browser_after r) \/
   login_succeeded d b (data_after r) (browser_after r)).
Proof.
  intros r. subst r. rewrite login_run. cbn zeta.
  unfold login_failed, login_succeeded, outcome_of, data_after, browser_after.
  destruct (net (requests b)) as [|res]; [cbn; auto 10|].
  destruct (res_ok res); [|cbn; auto 10].
  destruct (outcome_bind _ _) as [token|]; [|cbn; auto 10].
  cbn [fst snd]. do 4 (split; [reflexivity|]). right. exists (to_string token). by cbn.
Qed.

(** What the login stores is what the Home view presents: the profile request carries
    the text stored from the response.  A response without a usable token still logs
    in; when the text stored is empty, the Home view sends the user back to the login
    route at once and the empty token stays in the storage. *)
Theorem login_token_reaches_home
    (net : network) (d : Login.data) (b : browser) (res : response) (body token : jsval)
    (net' : network) (hd : Home.data) :
  net (requests b) = NetResp res -> res_ok res = true ->
  res_body res = Some body -> get body "access_token" = Done token ->
  let b1 := browser_after (Login.login net d b) in
  let r := Home.mounted net' hd b1 in
  localStorage b1 !! "token" = Some (to_string token) /\
  (to_string token <> "" ->
     exists rest, trace (browser_after r) =
       trace b1 ++ EvFetch (Home.me_request ("Bearer " +:+ to_string token)) :: rest) /\
  (to_string token = "" ->
     trace (browser_after r) = trace b1 ++ [EvPush "/login"] /\
     localStorage (browser_after r) !! "token" = Some "").
Proof.
  intros Hnet Hok Hbody Htoken b1 r. subst b1 r.
  rewrite login_run. cbn zeta. rewrite Hnet, Hok, Hbody. cbn [outcome_bind].
  rewrite Htoken. unfold browser_after. cbn [snd].
  set (b1 := {| localStorage := _ |}).
  assert (Hstored : localStorage b1 !! "token" = Some (to_string token))
    by apply lookup_insert_eq.
  clearbody b1. split; [exact Hstored|]. split.
  - intros Hne. apply (home_mounted_first_effect net' hd b1 _ Hstored Hne).
  - intros Hempty. unfold Home.mounted. run. rewrite Hstored. cbn [of_nullable].
    rewrite Hempty. cbn [truthy Str.nonempty negb snd trace localStorage].
    split; [reflexivity|]. by rewrite Hstored, Hempty.
Qed.

Lemma logout_run (net : network) (d : Home.data) (b : browser) :
  Home.logout net d b =
    (Done tt, d,
     {| localStorage := delete "token" (localStorage b); route := "/login";
        requests := requests b;
        trace := trace b ++ [EvRemoveItem "token"; EvPush "/login"] |}).
Proof. unfold Home.logout. run. by rewrite <- app_assoc. Qed.

Lemma layout_logout_run (net : network) (d : Layout.data) (b : browser) :
  Layout.logout net d b =
    (Done tt, d,
     {| localStorage := delete "token" (localStorage b); route := "/login";
        requests := requests b;
        trace := trace b ++ [EvRemoveItem "token"; EvPush "/login"] |}).
Proof. unfold Layout.logout. run. by rewrite <- app_assoc. Qed.

(** After a logout, from the Home view or from the layout, the session is over: the
    token is gone whatever it was, other keys are kept, and the next activation of the
    Home view makes no request, it only goes to the login route. *)
Theorem logout_ends_session
    (net : network) (hd : Home.data) (ld : Layout.data) (b : browser)
    (net' : network) (hd' : Home.data) :
  let b1 := browser_after (Home.logout net hd b) in
  browser_after (Layout.logout net ld b) = b1 /\
  localStorage b1 !! "token" = None /\
  (forall k, k <> "token" -> localStorage b1 !! k = localStorage b !! k) /\
  route b1 = "/login" /\
  requests b1 = requests b /\
  let r := Home.mounted net' hd' b1 in
  data_after r = hd' /\
  requests (browser_after r) = requests b /\
  trace (browser_after r) = trace b ++ [EvRemoveItem "token"; EvPush "/login"; EvPush "/login"] /\
  localStorage (browser_after r) = localStorage b1.
Proof.
  intros b1. subst b1. rewrite logout_run, layout_logout_run.
  unfold browser_after at 1 2 3 4 5 6 7. cbn [snd localStorage route requests].
  split; [reflexivity|]. split; [apply lookup_delete_eq|].
  split; [by intros k Hk; rewrite lookup_delete_ne|].
  do 2 (split; [reflexivity|]).
  unfold Home.mounted. run. unfold browser_after. cbn [snd localStorage].
  rewrite lookup_delete_eq. cbn [of_nullable truthy negb snd fst].
  unfold data_after. cbn [fst snd requests trace localStorage].
  by rewrite <- app_assoc.
Qed.

Lemma home_mounted_pushes (net : network) (d : Home.data) (b : browser) :
  exists evs,
    trace (browser_after (Home.mounted net d b)) = trace b ++ evs /\
    Forall (fun e => forall path, e = EvPush path -> path = "/login") evs.
Proof.
  assert (Hout : forall t,
    Forall (fun e => forall path, e = EvPush path -> path = "/login")
      [EvFetch (Home.me_request ("Bearer " +:+ t)); EvRemoveItem "token"; EvPush "/login"]).
  { intros t. repeat constructor; try discriminate. by intros ? [= <-]. }
  destruct (truthy (of_nullable (localStorage b !! "token"))) eqn:Htruthy.
  - destruct (localStorage b !! "token") as [t|] eqn:Htok; [|discriminate].
    cbn [of_nullable] in Htruthy. apply truthy_JStr in Htruthy.
    destruct (home_mounted_with_token net d b t Htok Htruthy) as [[profile Hans] | ->];
      [|by eexists].
    rewrite (home_mounted_profile net d b t profile Htok Htruthy Hans).
    unfold browser_after.
    repeat match goal with
           | |- context [match ?x with _ => _ end] => destruct x
           end; cbn [snd trace sent]; eexists; (split; [reflexivity|]);
      first [apply Hout | repeat constructor; discriminate].
  - unfold Home.mounted. run. rewrite Htruthy. cbn [negb]. unfold browser_after. cbn [snd trace].
    eexists. split; [reflexivity|]. repeat constructor. by intros ? [= <-].
Qed.

(** The views only navigate to paths that the router maps to a view: the Home view
    and the layout only to the login view, the login form only to the Home view; the
    one menu entry with a route leads to the Inventory view, and the start path "/" to
    the login view. *)
Theorem navigation_stays_on_the_map (net : network) (b : browser) :
  (forall d, exists evs,
     trace (browser_after (Home.mounted net d b)) = trace b ++ evs /\
     navigates_to Router.LoginView evs) /\
  (forall d, exists evs,
     trace (browser_after (Home.logout net d b)) = trace b ++ evs /\
     navigates_to Router.LoginView evs) /\
  (forall d, exists evs,
     trace (browser_after (Layout.logout net d b)) = trace b ++ evs /\
     navigates_to Router.LoginView evs) /\
  (forall d, exists evs,
     trace (browser_after (Login.login net d b)) = trace b ++ evs /\
     navigates_to Router.HomeView evs) /\
  (forall item, In item HomeMenu.menuItems -> HomeMenu.is_link item = true ->
     exists path, HomeMenu.route item = Some path /\
                  Router.shows path = Some Router.InventoryView) /\
  Router.shows "/" = Some Router.LoginView.
Proof.
  assert (Hlogin : forall evs,
    Forall (fun e => forall path, e = EvPush path -> path = "/login") evs ->
    navigates_to Router.LoginView evs).
  { intros evs Hevs. eapply Forall_impl; [exact Hevs|].
    intros e He path Hpath. by rewrite (He path Hpath). }
  split; [|split; [|split; [|split; [|split]]]].
  - intros d. destruct (home_mounted_pushes net d b) as (evs & Htrace & Hevs).
    exists evs. split; [exact Htrace|]. by apply Hlogin.
  - intros d. rewrite logout_run. eexists. split; [reflexivity|]. apply Hlogin.
    repeat constructor; [discriminate|by intros ? [= <-]].
  - intros d. rewrite layout_logout_run. eexists. split; [reflexivity|]. apply Hlogin.
    repeat constructor; [discriminate|by intros ? [= <-]].
  - intros d. rewrite login_run. cbn zeta. unfold browser_after.
    destruct (net (requests b)) as [|res];
      [eexists; split; [reflexivity|]; repeat constructor; discriminate|].
    destruct (res_ok res);
      [|eexists; split; [reflexivity|]; repeat constructor; discriminate].
    destruct (outcome_bind _ _);
      [|eexists; split; [reflexivity|]; repeat constructor; discriminate].
    eexists. split; [reflexivity|].
    repeat constructor; try discriminate. by intros ? [= <-].
  - intros item Hin Hlink. cbn in Hin.
    repeat (destruct Hin as [<- | Hin];
            [first [discriminate Hlink | by exists "/inventory"]|]).
    destruct Hin.
  - reflexivity.
Qed.
End SessionFacts.

(** ** The views run on the sample inputs *)

Section Runs.
Import IntNum AsciiText Sample.

(** The backend cannot be reached while a token is stored: the token is dropped. *)
Lemma home_rejected_token_is_cleared_witness :
  let r := Home.mounted offline Home.initial signed_in in
  outcome_of r = Done tt /\
  data_after r = Home.set_accessError (Some "Sesion invalida") Home.initial /\
  localStorage (browser_after r) !! "token" = None /\
  Home.logged_out signed_in "abc" (browser_after r).
Proof.
  apply (home_rejected_token_is_cleared offline Home.initial signed_in "abc").
  - reflexivity.
  - discriminate.
  - left. reflexivity.
Defined.

(** A visitor without a token opens the Home view: sent to the login route at once. *)
Lemma home_mounted_without_token_witness :
  Home.mounted offline Home.initial fresh =
    (Done tt, Home.initial,
     {| localStorage := ∅; route := "/login"; requests := 0; trace := [EvPush "/login"] |}).
Proof. apply (home_mounted_without_token offline Home.initial fresh). reflexivity. Defined.

(** An administrator stays on the view with the branch controls; a seller is logged out. *)
Lemma home_role_gate_witness :
  (let r := Home.mounted (replying admin_profile) Home.initial signed_in in
   Home.canChooseBranch (data_after r) = true /\ Home.stays signed_in "abc" (browser_after r)) /\
  (let r := Home.mounted (replying seller_profile) Home.initial signed_in in
   Home.logged_out signed_in "abc" (browser_after r)).
Proof.
  split.
  - destruct (home_role_gate (replying admin_profile) Home.initial signed_in "abc" admin_profile)
      as [Hadmin _].
    + reflexivity.
    + discriminate.
    + eexists. split; [reflexivity|]. split; reflexivity.
    + destruct (Hadmin eq_refl) as (_ & Hcan & Hbranches).
      split; [exact Hcan|]. eapply Hbranches. reflexivity.
  - destruct (home_role_gate (replying seller_profile) Home.initial signed_in "abc" seller_profile)
      as [_ Hother].
    + reflexivity.
    + discriminate.
    + eexists. split; [reflexivity|]. split; reflexivity.
    + apply Hother. intros Hfirst.
      assert (Hname : Home.first_role_name seller_profile = Done (JStr "vendedor"))
        by reflexivity.
      rewrite Hname in Hfirst. discriminate.
Defined.

(** The profile of the seller lists no branch. *)
Lemma home_default_branch_witness :
  let r := Home.mounted (replying seller_profile) Home.initial signed_in in
  Home.branches (data_after r) = [Home.central] /\
  Home.activeBranch (data_after r) = Home.central.
Proof.
  apply (home_default_branch (replying seller_profile) Home.initial signed_in "abc"
           seller_profile (JStr "vendedor")).
  - reflexivity.
  - discriminate.
  - eexists. split; [reflexivity|]. split; reflexivity.
  - reflexivity.
  - exists (JArr []). split; [reflexivity|]. by right.
Defined.

(** The three ways a submission of the form can end. *)
Lemma login_outcomes_witness :
  (let r := Login.login refusing filled_in fresh in
   Login.error (data_after r) = Some "Credenciales incorrectas" /\
   localStorage (browser_after r) !! "token" = None /\ route (browser_after r) = "/inventory") /\
  (let r := Login.login offline filled_in fresh in
   Login.error (data_after r) = Some "Error de conexion") /\
  (let r := Login.login (replying token_reply) filled_in fresh in
   localStorage (browser_after r) !! "token" = Some "abc" /\ route (browser_after r) = "/home").
Proof.
  pose proof (login_outcomes refusing filled_in fresh) as (Hbad & _ & _).
  pose proof (login_outcomes offline filled_in fresh) as (_ & Hdown & _).
  pose proof (login_outcomes (replying token_reply) filled_in fresh) as (_ & _ & Hgood).
  split; [|split].
  - destruct (Hbad _ eq_refl eq_refl) as (Herr & Hls & Hroute & _).
    split; [exact Herr|]. split; [by rewrite Hls|by rewrite Hroute].
  - by destruct (Hdown eq_refl) as (Herr & _).
  - destruct (Hgood _ token_reply (JStr "abc") eq_refl eq_refl eq_refl eq_refl)
      as (_ & Htok & Hroute & _).
    by split.
Defined.

(** A visitor without a token opens the Inventory view. *)
Lemma inventory_mounted_without_token_witness :
  let r := Inventory.mounted offline Inventory.initial fresh in
  route (browser_after r) = "/inventory" /\
  req_headers (Inventory.catalogs_request None) = [("Authorization", "Bearer null")] /\
  exists rest,
    trace (browser_after r) = EvFetch (Inventory.catalogs_request None) :: rest /\
    Forall (fun e => is_fetch e = true) rest.
Proof.
  apply (inventory_mounted_without_token offline Inventory.initial fresh). reflexivity.
Defined.

(** An update that succeeds, with the refetch answered: list replaced, form reset. *)
Lemma successful_mutation_refetches_witness :
  let r := Inventory.saveProduct (replying (JArr [pantalon])) editing signed_in in
  outcome_of r = Done tt /\
  Inventory.isEditing (data_after r) = false /\
  Inventory.editingId (data_after r) = JNull /\
  Inventory.form (data_after r) = Inventory.empty_form /\
  Inventory.products (data_after r) = JArr [pantalon].
Proof.
  destruct (successful_mutation_refetches (replying (JArr [pantalon])) editing signed_in
              {| res_ok := true; res_body := Some (JArr [pantalon]) |} eq_refl eq_refl)
    as [(_ & Hreset & Hlist) _].
  assert (Hanswered : Inventory.answered (replying (JArr [pantalon])) 1)
    by (intros _; by eexists).
  destruct (Hreset Hanswered) as (Hdone & Hmode & Hid & Hform).
  do 4 (split; [assumption|]).
  apply Hlist. eexists. by repeat split.
Defined.

(** C4, as stated, fails for a deactivation: while [camisa] is being edited, a product
    is deactivated and the call succeeds; the list is refetched, but the view is still
    in edit mode with the fields of [camisa] in the form. *)
Lemma deactivation_keeps_edit_mode :
  let r := Inventory.deactivateProduct pantalon (replying (JArr [camisa])) editing signed_in in
  outcome_of r = Done tt /\
  Inventory.products (data_after r) = JArr [camisa] /\
  Inventory.isEditing (data_after r) = true /\
  Inventory.editingId (data_after r) = camisa_id /\
  Inventory.form (data_after r) <> Inventory.empty_form.
Proof.
  intros r. do 4 (split; [reflexivity|]).
  intros Hform. apply (f_equal Inventory.cod_producto) in Hform. discriminate.
Qed.

(** The form as first shown is saved with a POST that carries the (empty) code. *)
Lemma save_request_by_mode_witness :
  let request := Inventory.save_request (Some "abc") Inventory.initial in
  req_method request = "POST" /\
  req_url request = "http://127.0.0.1:8000/inventory/products" /\
  exists payload, req_body request = Some (JObj payload) /\
                  payload !! "cod_producto" = Some (JStr "").
Proof.
  destruct (save_request_by_mode offline Inventory.initial signed_in Inventory.reachable_initial)
    as (_ & (payload & Hbody & _ & Hcreate) & _).
  destruct (Hcreate eq_refl) as (Hmethod & Hurl & code & Hcode & Hpayload).
  split; [exact Hmethod|]. split; [exact Hurl|].
  exists payload. split; [exact Hbody|].
  injection Hcode as <-. exact Hpayload.
Defined.

(** Three searches over the same list: a matching, a blank and a non-matching query. *)
Lemma filteredProducts_by_joined_text_witness :
  Inventory.filteredProducts searching = Done (JArr [camisa]) /\
  Inventory.filteredProducts (Inventory.set_search "  " searching) = Done (JArr [camisa; pantalon]) /\
  Inventory.filteredProducts (Inventory.set_search "zapato" searching) = Done (JArr []).
Proof.
  assert (Hall : Forall (fun p => nullish p = false) [camisa; pantalon])
    by (repeat constructor).
  destruct (filteredProducts_by_joined_text searching [camisa; pantalon] eq_refl Hall)
    as (_ & _ & _ & Hquery).
  destruct (filteredProducts_by_joined_text (Inventory.set_search "  " searching)
              [camisa; pantalon] eq_refl Hall) as (_ & Htrimmed & Hblank & _).
  destruct (filteredProducts_by_joined_text (Inventory.set_search "zapato" searching)
              [camisa; pantalon] eq_refl Hall) as (_ & _ & _ & Hnone).
  split; [|split].
  - destruct Hquery as (-> & _); [discriminate|reflexivity].
  - exact (Hblank (Htrimmed eq_refl)).
  - destruct Hnone as (_ & _ & _ & Hempty); [discriminate|]. apply Hempty.
    intros p [<-|[<-|[]]]; reflexivity.
Defined.

(** C7, as stated, fails for a query that runs over two fields: "a1 cam" is in
    neither the code "A1" nor the description "Camisa" of [camisa] (its only searched
    values), yet the product is kept, because it is in the joined text "a1 camisa". *)
Lemma filter_matches_across_fields :
  Inventory.filteredProducts searching = Done (JArr [camisa]) /\
  Inventory.searched camisa = ["A1"; "Camisa"] /\
  Str.includes (toLowerCase "A1") "a1 cam" = false /\
  Str.includes (toLowerCase "Camisa") "a1 cam" = false /\
  Inventory.some_field_contains "a1 cam" camisa = false.
Proof. do 4 (split; [reflexivity|]). reflexivity. Qed.

(** A save and a deactivation that the backend refuses while [camisa] is being edited. *)
Lemma mutation_failure_is_silent_witness :
  Inventory.saveProduct refusing editing signed_in =
    (Done tt, editing, sent (Inventory.save_request (Some "abc") editing) signed_in) /\
  let r := Inventory.deactivateProduct camisa refusing editing signed_in in
  Inventory.same_form editing (data_after r) /\ route (browser_after r) = "/home".
Proof.
  destruct (mutation_failure_is_silent refusing editing signed_in
              {| res_ok := false; res_body := None |} eq_refl eq_refl)
    as (Hsave & _ & _ & Hdeactivate).
  split; [exact Hsave|].
  destruct (Hdeactivate camisa camisa_id eq_refl) as (_ & Hsame & _ & _ & Hroute).
  by split.
Defined.

(** The form as first shown has no line and no segment selected: both go out as null. *)
Lemma save_payload_nulls_empty_selection_witness :
  exists payload,
    req_body (Inventory.save_request (Some "abc") Inventory.initial) = Some (JObj payload) /\
    payload !! "linea_id" = Some JNull /\ payload !! "segmento_id" = Some JNull.
Proof.
  destruct (save_payload_nulls_empty_selection offline Inventory.initial signed_in)
    as (_ & payload & Hbody & Hlinea & Hsegmento & _).
  exists payload. split; [exact Hbody|]. split; [exact (Hlinea eq_refl)|exact (Hsegmento eq_refl)].
Defined.
(** The token of the login response is the one the Home view presents. *)
Lemma login_token_reaches_home_witness :
  let b1 := browser_after (Login.login (replying token_reply) filled_in fresh) in
  let r := Home.mounted offline Home.initial b1 in
  localStorage b1 !! "token" = Some "abc" /\
  exists rest,
    trace (browser_after r) = trace b1 ++ EvFetch (Home.me_request "Bearer abc") :: rest.
Proof.
  destruct (login_token_reaches_home (replying token_reply) filled_in fresh
              {| res_ok := true; res_body := Some token_reply |} token_reply (JStr "abc")
              offline Home.initial) as (Hstored & Hfetch & _).
  - reflexivity.
  - reflexivity.
  - reflexivity.
  - reflexivity.
  - split; [exact Hstored|]. apply Hfetch. discriminate.
Defined.

(** The Inventory view, mounted against a backend that lists one line. *)
Lemma reachable_well_formed_witness :
  well_formed
    (data_after (Inventory.mounted (replying catalogs_reply) Inventory.initial signed_in)).
Proof.
  apply reachable_well_formed.
  exact (Inventory.reachable_step Inventory.initial Inventory.Activate
           (replying catalogs_reply) signed_in Inventory.reachable_initial).
Defined.

(** A line is created: two requests, and the lists of the second answer. *)
Lemma catalog_creation_refetches_witness :
  let r := Inventory.saveLinea (replying catalogs_reply) Inventory.initial signed_in in
  requests (browser_after r) = 2 /\
  Inventory.lineas (data_after r) = JArr [ropa] /\
  Inventory.segmentos (data_after r) = JArr [].
Proof.
  destruct (catalog_creation_refetches (replying catalogs_reply) Inventory.initial signed_in
              {| res_ok := true; res_body := Some catalogs_reply |})
    as [(Hb & _ & _ & _ & _ & Hanswered) _].
  - reflexivity.
  - reflexivity.
  - destruct Hanswered as (_ & _ & Hlists).
    { intros _. exists catalogs_reply. split; reflexivity. }
    destruct (Hlists {| res_ok := true; res_body := Some catalogs_reply |} catalogs_reply)
      as [Hl Hs]; [reflexivity..|].
    split; [by rewrite Hb|]. split; [exact Hl|exact Hs].
Defined.

(** The Inventory view is opened while the backend cannot be reached. *)
Lemma inventory_network_failure_is_uncaught_witness :
  Inventory.mounted offline Inventory.initial signed_in =
    (Thrown NetworkError, Inventory.initial,
     sent (Inventory.catalogs_request (Some "abc")) signed_in).
Proof.
  destruct (inventory_network_failure_is_uncaught offline Inventory.initial signed_in)
    as (_ & _ & Hmounted & _).
  - reflexivity.
  - exact Hmounted.
Defined.

(** From " A1" to "a1 cam" in the search box, over the same two products. *)
Lemma search_refinement_witness :
  exists l l',
    Inventory.filteredProducts searching_a1 = Done (JArr l) /\
    Inventory.filteredProducts searching = Done (JArr l') /\
    sublist l' l /\ sublist l [camisa; pantalon].
Proof.
  apply (search_refinement searching_a1 searching [camisa; pantalon]).
  - reflexivity.
  - reflexivity.
  - repeat constructor.
  - reflexivity.
Defined.

(** One round of the timer and one more firing: the second phrase. *)
Lemma phrases_rotate_witness :
  Login.phraseIndex (data_after (ticks 26 offline Login.initial fresh)) = 1.
Proof.
  destruct (phrases_rotate 26 offline Login.initial fresh) as (_ & _ & Hindex & _).
  - cbn. lia.
  - exact Hindex.
Defined.

End Runs.
